(** * compas_view2: the viewer application shell

    A shallow embedding of [src/compas_view2/app/app.py] (class [App]) and of
    the script [scripts/v120_on_select.py].

    Python state is threaded explicitly through a small state-and-exception
    monad.  Calls into Qt and into the collaborators that live in other
    modules of the package ([Object], [Selector], [Controller], the views)
    are recorded, in order, in a call log that is part of the state. *)

From stdpp Require Import gmap strings list.
From Stdlib Require Import ZArith QArith.

Set Warnings "-register-all,-clear-no-such-hyp".
Open Scope string_scope.
Open Scope list_scope.
Open Scope Z_scope.

(** ** Exceptions and results *)

Inductive exn : Type :=
| Exception (msg : string)
| NotImplementedError
| KeyError (key : string)
| TypeError
| AttributeError (name : string)
| RecursionError
| OtherError (name : string).

Inductive result (A : Type) : Type :=
| Ok (a : A)
| Raise (e : exn).
Arguments Ok {A} a.
Arguments Raise {A} e.

(** ** JSON values, as [json.load] returns them

    A dict is kept as its list of items in insertion order, keys pairwise
    distinct.  Numbers are integers: for everything [App] does with a
    configuration value (truth test, iteration, subscripting, comparison to
    a string) a non-integral number behaves like a non-zero integer. *)

Inductive json : Type :=
| JNull
| JBool (b : bool)
| JNum (n : Z)
| JStr (s : string)
| JArr (l : list json)
| JObj (kvs : list (string * json)).

Fixpoint assoc {A} (k : string) (kvs : list (string * A)) : option A :=
  match kvs with
  | [] => None
  | (k', v) :: kvs' => if String.eqb k k' then Some v else assoc k kvs'
  end.

(** Python's truth value of a JSON value ([if not items]). *)
Definition truthy (v : json) : bool :=
  match v with
  | JNull => false
  | JBool b => b
  | JNum n => negb (Z.eqb n 0)
  | JStr s => negb (String.eqb s "")
  | JArr l => match l with [] => false | _ => true end
  | JObj kvs => match kvs with [] => false | _ => true end
  end.

Fixpoint chars (s : string) : list json :=
  match s with
  | EmptyString => []
  | String c s' => JStr (String c EmptyString) :: chars s'
  end.

(** [iter(v)]: a list yields its elements, a dict its keys, a string its
    characters; nothing else is iterable. *)
Definition py_iter (v : json) : result (list json) :=
  match v with
  | JArr l => Ok l
  | JObj kvs => Ok (map (λ kv, JStr (fst kv)) kvs)
  | JStr s => Ok (chars s)
  | _ => Raise TypeError
  end.

(** [v[k]] for a string key [k]: only a dict can be subscripted by a
    string. *)
Definition py_getitem (v : json) (k : string) : result json :=
  match v with
  | JObj kvs => match assoc k kvs with
                | Some x => Ok x
                | None => Raise (KeyError k)
                end
  | _ => Raise TypeError
  end.

(** [d.get(k)] and [d.get(k, None)]: only dicts have a [get] method. *)
Definition py_get (v : json) (k : string) : result json :=
  match v with
  | JObj kvs => Ok (default JNull (assoc k kvs))
  | _ => Raise (AttributeError "get")
  end.

(** [k in d], used in the source only where [d] is known to be a dict. *)
Definition py_has_key (v : json) (k : string) : bool :=
  match v with
  | JObj kvs => bool_decide (is_Some (assoc k kvs))
  | _ => false
  end.

(** [v == s] for a string literal [s]. *)
Definition py_eq_str (v : json) (s : string) : bool :=
  match v with
  | JStr s' => String.eqb s' s
  | _ => false
  end.

(** The mapping a truthy value unpacks to under [**kwargs]. *)
Definition py_mapping (v : json) : result (list (string * json)) :=
  match v with
  | JObj kvs => Ok kvs
  | _ => Raise TypeError
  end.

(** ** Identities *)

(** Qt-side objects (widgets, actions, formats) and Python viewer objects
    are told apart by identity only. *)
Definition qid := nat.
Definition loc := nat.

(** What a Python call hands back to its caller. *)
Inductive pyval : Type :=
| PyNone
| PyRef (obj : loc).

(** ** Module constants *)

Definition VERSIONS : gmap string (Z * Z) :=
  {[ "120" := (2, 1); "330" := (3, 3) ]}.

Definition ICONS : string := "../icons".

Inductive view_class : Type := View120 | View330.
Inductive gl_profile : Type := CoreProfile | CompatibilityProfile.

(** The callable bound to a menu or toolbar entry: either
    [partial(action, *args, **kwargs)] for the controller's attribute
    [action], or a bound method [self.name] of the app. *)
Inductive callback : Type :=
| Partial (action : string) (args : list json) (kwargs : list (string * json))
| BoundMethod (name : string).

(** The names [class App] defines. *)
Definition App_attrs : list string :=
  [ "__init__"; "resize"; "add"; "show"; "init_statusbar"; "init_menubar";
    "init_toolbar"; "add_menubar_items"; "add_toolbar_items"; "add_action" ].

(** Nesting depth of a JSON value. *)
Fixpoint depth (v : json) : nat :=
  match v with
  | JArr l => S (list_max (map depth l))
  | JObj kvs => S (list_max (map (λ kv, depth (snd kv)) kvs))
  | _ => O
  end.

(** ** The log of calls into Qt and into the package's other modules *)

Inductive call : Type :=
| QSurfaceFormat_new (fmt : qid)
| setVersion (fmt : qid) (major minor : Z)
| setProfile (fmt : qid) (p : gl_profile)
| setDefaultFormat (fmt : qid)
| QSurfaceFormat_setDefaultFormat (fmt : qid)
| QApplication_new (app : qid)
| QMainWindow_new (win : qid)
| View_new (cls : view_class) (mode : string) (v : qid)
| setCentralWidget (win v : qid)
| setContentsMargins (w : qid)
| Controller_new
| Selector_new
| references_new (app : qid)
| references_add (app win : qid)
| statusBar (win sb : qid)
| showMessage (sb : qid) (msg : string)
| menuBar (win mb : qid)
| setNativeMenuBar (mb : qid) (b : bool)
| addToolBar (win : qid) (title : string) (tb : qid)
| setMovable (tb : qid) (b : bool)
| setObjectName (tb : qid) (name : string)
| setIconSize (tb : qid) (w h : Z)
| QIcon_new (path : json) (icon : qid)
| addSeparator (parent : qid)
| addMenu (parent : qid) (text : json) (menu : qid)
| QActionGroup_new (win : qid) (exclusive : bool) (group : qid)
| addAction (parent : qid) (icon : option qid) (text : json)
            (cb : callback) (action : qid)
| setCheckable (action : qid) (b : bool)
| setChecked (action : qid) (v : json)
| group_addAction (group action : qid)
| window_resize (win : qid) (w h : Z)
| setGeometry (win : qid) (x y : Q) (w h : Z)
| window_show (win : qid)
| exec_ (app : qid)
| called_Selector_add (obj : loc)
| called_init (obj : loc).

(** ** The state *)

(** A view: the OpenGL widget.  [objects] is the dict [view.objects]; its
    keys are viewer objects, hashed by identity ("mapping the object's ID
    to the instance", as the class docstring has it).  [valid] is what
    [isValid()] answers: whether the widget has a rendering context. *)
Record View : Type := mkView {
  view_cls : view_class;
  view_mode : string;
  view_qid : qid;
  objects : gmap loc loc;
  valid : bool
}.

Section Viewer.

(** The collaborators of [App] that live in other modules of the package
    are parameters: the geometric data and options handed to [add], the
    viewer objects [Object.build] makes of them (or the exception it
    raises), GPU initialisation [obj.init()], the selector and its [add],
    and the names a [Controller] instance answers [getattr] for. *)
Context {Data Kwargs Obj SelState : Type}.
Variable Object_build : Data → Kwargs → result Obj.
Variable Object_init : Obj → result Obj.
Variable Selector_empty : SelState.
Variable Selector_add : SelState → loc → result SelState.
Variable Controller_has : string → bool.

(** The names the class of [self] defines: [App_attrs] for an [App], more
    for a subclass. *)
Variable class_attrs : list string.

(** The attributes of the [App] instance; [None] while not yet assigned. *)
Record Self : Type := mkSelf {
  width : option Z;
  height : option Z;
  window : option qid;
  view : option View;
  controller : option unit;
  _app : option qid;
  selector : option SelState;
  statusbar : option qid;
  menubar : option qid
}.

Record State : Type := mkState {
  self : Self;
  heap : gmap loc Obj;            (* the viewer objects alive *)
  qapp : option qid;              (* QCoreApplication.instance() *)
  screen : Z * Z;                 (* desktop().availableGeometry() *)
  calls : list call;              (* oldest first *)
  next_qid : qid
}.

Definition blank : Self :=
  mkSelf None None None None None None None None None.

Definition with_self (f : Self → Self) (s : State) : State :=
  mkState (f (self s)) (heap s) (qapp s) (screen s) (calls s) (next_qid s).
Definition with_heap (h : gmap loc Obj) (s : State) : State :=
  mkState (self s) h (qapp s) (screen s) (calls s) (next_qid s).
Definition with_qapp (a : qid) (s : State) : State :=
  mkState (self s) (heap s) (Some a) (screen s) (calls s) (next_qid s).
Definition with_call (c : call) (s : State) : State :=
  mkState (self s) (heap s) (qapp s) (screen s) (calls s ++ [c]) (next_qid s).
Definition with_next (n : qid) (s : State) : State :=
  mkState (self s) (heap s) (qapp s) (screen s) (calls s) n.

Definition set_width (v : Z) (a : Self) : Self :=
  mkSelf (Some v) (height a) (window a) (view a) (controller a) (_app a)
         (selector a) (statusbar a) (menubar a).
Definition set_height (v : Z) (a : Self) : Self :=
  mkSelf (width a) (Some v) (window a) (view a) (controller a) (_app a)
         (selector a) (statusbar a) (menubar a).
Definition set_window (v : qid) (a : Self) : Self :=
  mkSelf (width a) (height a) (Some v) (view a) (controller a) (_app a)
         (selector a) (statusbar a) (menubar a).
Definition set_view (v : View) (a : Self) : Self :=
  mkSelf (width a) (height a) (window a) (Some v) (controller a) (_app a)
         (selector a) (statusbar a) (menubar a).
Definition set_controller (a : Self) : Self :=
  mkSelf (width a) (height a) (window a) (view a) (Some ()) (_app a)
         (selector a) (statusbar a) (menubar a).
Definition set__app (v : qid) (a : Self) : Self :=
  mkSelf (width a) (height a) (window a) (view a) (controller a) (Some v)
         (selector a) (statusbar a) (menubar a).
Definition set_selector (v : SelState) (a : Self) : Self :=
  mkSelf (width a) (height a) (window a) (view a) (controller a) (_app a)
         (Some v) (statusbar a) (menubar a).
Definition set_statusbar (v : qid) (a : Self) : Self :=
  mkSelf (width a) (height a) (window a) (view a) (controller a) (_app a)
         (selector a) (Some v) (menubar a).
Definition set_menubar (v : qid) (a : Self) : Self :=
  mkSelf (width a) (height a) (window a) (view a) (controller a) (_app a)
         (selector a) (statusbar a) (Some v).

(** ** The monad: state, and exceptions that keep the state reached *)

Definition M (A : Type) : Type := State → result A * State.

Definition ret {A} (a : A) : M A := λ s, (Ok a, s).
Definition raise {A} (e : exn) : M A := λ s, (Raise e, s).
Definition bind {A B} (m : M A) (k : A → M B) : M B :=
  λ s, match m s with
       | (Ok a, s') => k a s'
       | (Raise e, s') => (Raise e, s')
       end.

#[local] Notation "x <- m ;; k" := (bind m (λ x, k))
  (at level 100, m at next level, right associativity).
#[local] Notation "m ;;; k" := (bind m (λ _, k))
  (at level 100, right associativity).

Definition lift {A} (r : result A) : M A := λ s, (r, s).
Definition modify (f : State → State) : M unit := λ s, (Ok (), f s).
Definition log (c : call) : M unit := modify (with_call c).
Definition new_qid : M qid :=
  λ s, (Ok (next_qid s), with_next (S (next_qid s)) s).

(** [self.name]: the attribute if assigned, [AttributeError] otherwise. *)
Definition getattr_self {A} (name : string) (f : Self → option A) : M A :=
  λ s, match f (self s) with
       | Some a => (Ok a, s)
       | None => (Raise (AttributeError name), s)
       end.

(** [for x in l: body(x)] *)
Fixpoint for_each {A} (l : list A) (body : A → M unit) : M unit :=
  match l with
  | [] => ret ()
  | x :: l' => body x ;;; for_each l' body
  end.

(** ** [App.add] *)

(** [Object.build(data, **kwargs)]: a new viewer object, at an identity no
    live object has. *)
Definition build (data : Data) (kwargs : Kwargs) : M loc :=
  o <- lift (Object_build data kwargs) ;;
  λ s, let l := fresh (dom (heap s)) in
       (Ok l, with_heap (<[l := o]> (heap s)) s).

(** [self.view.objects[key] = obj] *)
Definition view_objects_setitem (key obj : loc) : M unit :=
  v <- getattr_self "view" view ;;
  modify (with_self (set_view
    (mkView (view_cls v) (view_mode v) (view_qid v)
            (<[key := obj]> (objects v)) (valid v)))).

(** [self.selector.add(obj)] *)
Definition selector_add (obj : loc) : M unit :=
  sel <- getattr_self "selector" selector ;;
  log (called_Selector_add obj) ;;;
  sel' <- lift (Selector_add sel obj) ;;
  modify (with_self (set_selector sel')).

(** [self.view.isValid()] *)
Definition view_isValid : M bool :=
  v <- getattr_self "view" view ;;
  ret (valid v).

(** [obj.init()] *)
Definition init (obj : loc) : M unit :=
  log (called_init obj) ;;;
  λ s, match heap s !! obj with
       | Some o =>
           match Object_init o with
           | Ok o' => (Ok (), with_heap (<[obj := o']> (heap s)) s)
           | Raise e => (Raise e, s)
           end
       | None => (Raise (OtherError "ReferenceError"), s)
       end.

Definition add (data : Data) (kwargs : Kwargs) : M pyval :=
  obj <- build data kwargs ;;
  view_objects_setitem obj obj ;;;
  selector_add obj ;;;
  isvalid <- view_isValid ;;
  (if isvalid then init obj else ret ()) ;;;
  ret PyNone.

(** ** The user interface *)

(** [desktop.availableGeometry()] *)
Definition availableGeometry : M (Z * Z) := λ s, (Ok (screen s), s).

Definition resize (width height : Z) : M unit :=
  win <- getattr_self "window" window ;;
  log (window_resize win width height) ;;;
  _ <- getattr_self "_app" _app ;;
  rect <- availableGeometry ;;
  let x := ((1 # 2) * inject_Z (fst rect - width))%Q in
  let y := ((1 # 2) * inject_Z (snd rect - height))%Q in
  win <- getattr_self "window" window ;;
  log (setGeometry win x y width height).

Definition show : M unit :=
  win <- getattr_self "window" window ;;
  log (window_show win) ;;;
  app <- getattr_self "_app" _app ;;
  log (exec_ app).

Definition init_statusbar : M unit :=
  win <- getattr_self "window" window ;;
  sb <- new_qid ;;
  log (statusBar win sb) ;;;
  modify (with_self (set_statusbar sb)) ;;;
  log (setContentsMargins sb) ;;;
  log (showMessage sb "Ready").

(** [QtGui.QIcon(path)] *)
Definition QIcon (path : json) : M qid :=
  icon <- new_qid ;;
  log (QIcon_new path icon) ;;;
  ret icon.

(** [getattr(self.controller, name)]; what the controller has under a name
    is taken to be callable. *)
Definition getattr_controller (name : json) : M string :=
  match name with
  | JStr n => if Controller_has n then ret n else raise (AttributeError n)
  | _ => raise TypeError
  end.

Definition add_action (item : json) (parent : qid) : M qid :=
  text <- lift (py_getitem item "text") ;;
  _ <- getattr_self "controller" controller ;;
  name <- lift (py_getitem item "action") ;;
  action <- getattr_controller name ;;
  a <- lift (py_get item "args") ;;
  let args := if truthy a then a else JArr [] in
  k <- lift (py_get item "kwargs") ;;
  let kwargs := if truthy k then k else JObj [] in
  if py_has_key item "icon" then
    path <- lift (py_getitem item "icon") ;;
    icon <- QIcon path ;;
    al <- lift (py_iter args) ;;
    kl <- lift (py_mapping kwargs) ;;
    act <- new_qid ;;
    log (addAction parent (Some icon) text (Partial action al kl) act) ;;;
    ret act
  else
    al <- lift (py_iter args) ;;
    kl <- lift (py_mapping kwargs) ;;
    act <- new_qid ;;
    log (addAction parent None text (Partial action al kl) act) ;;;
    ret act.

(** The body of the [for item in item['items']] loop of a radio group. *)
Definition add_radio_action (radio parent : qid) (item : json) : M unit :=
  action <- add_action item parent ;;
  log (setCheckable action true) ;;;
  checked <- lift (py_getitem item "checked") ;;
  log (setChecked action checked) ;;;
  log (group_addAction radio action).

(** [add_menubar_items] calls itself on the items of a menu.  The
    recursion is on [fuel]; [add_menubar_items] below starts it with more
    fuel than the configuration is deep. *)
Fixpoint add_menubar_items_rec (fuel : nat) (items : json) (parent : qid)
  : M unit :=
  match fuel with
  | O => raise RecursionError
  | S fuel' =>
      if negb (truthy items) then ret () else
      l <- lift (py_iter items) ;;
      for_each l (λ item,
        ty <- lift (py_getitem item "type") ;;
        if py_eq_str ty "separator" then
          log (addSeparator parent)
        else if py_eq_str ty "menu" then
          text <- lift (py_getitem item "text") ;;
          menu <- new_qid ;;
          log (addMenu parent text menu) ;;;
          if py_has_key item "items" then
            sub <- lift (py_getitem item "items") ;;
            add_menubar_items_rec fuel' sub menu
          else ret ()
        else if py_eq_str ty "radio" then
          win <- getattr_self "window" window ;;
          radio <- new_qid ;;
          log (QActionGroup_new win true radio) ;;;
          sub <- lift (py_getitem item "items") ;;
          l' <- lift (py_iter sub) ;;
          for_each l' (add_radio_action radio parent)
        else if py_eq_str ty "action" then
          _ <- add_action item parent ;;
          ret ()
        else raise NotImplementedError)
  end.

Definition add_menubar_items (items : json) (parent : qid) : M unit :=
  add_menubar_items_rec (S (depth items)) items parent.

Definition add_toolbar_items (items : json) (parent : qid) : M unit :=
  if negb (truthy items) then ret () else
  l <- lift (py_iter items) ;;
  for_each l (λ item,
    ty <- lift (py_getitem item "type") ;;
    if py_eq_str ty "separator" then
      log (addSeparator parent)
    else if py_eq_str ty "action" then
      _ <- add_action item parent ;;
      ret ()
    else raise NotImplementedError).

Definition init_menubar (items : json) : M unit :=
  if negb (truthy items) then ret () else
  win <- getattr_self "window" window ;;
  mb <- new_qid ;;
  log (menuBar win mb) ;;;
  modify (with_self (set_menubar mb)) ;;;
  log (setNativeMenuBar mb false) ;;;
  log (setContentsMargins mb) ;;;
  mb <- getattr_self "menubar" menubar ;;
  add_menubar_items items mb.

(** The names of the attributes assigned on the instance. *)
Definition named {A} (name : string) (o : option A) : list string :=
  match o with Some _ => [name] | None => [] end.

Definition instance_attrs (a : Self) : list string :=
  named "width" (width a) ++ named "height" (height a) ++
  named "window" (window a) ++ named "view" (view a) ++
  named "controller" (controller a) ++ named "_app" (_app a) ++
  named "selector" (selector a) ++ named "statusbar" (statusbar a) ++
  named "menubar" (menubar a).

(** [self.name] for a name that is looked up on the instance and then on
    its class, as [self.undo] is. *)
Definition getattr_method (name : string) : M callback :=
  λ s, if bool_decide (name ∈ instance_attrs (self s) ++ class_attrs)
       then (Ok (BoundMethod name), s)
       else (Raise (AttributeError name), s).

Definition init_toolbar (items : json) : M unit :=
  if negb (truthy items) then ret () else
  win <- getattr_self "window" window ;;
  toolbar <- new_qid ;;
  log (addToolBar win "Tools" toolbar) ;;;
  log (setMovable toolbar false) ;;;
  log (setObjectName toolbar "Tools") ;;;
  log (setIconSize toolbar 24 24) ;;;
  icon <- QIcon (JStr (ICONS +:+ "/undo-solid.svg")) ;;
  undo <- getattr_method "undo" ;;
  undotool <- new_qid ;;
  log (addAction toolbar (Some icon) (JStr "Undo") undo undotool) ;;;
  icon <- QIcon (JStr (ICONS +:+ "/redo-solid.svg")) ;;
  redo <- getattr_method "redo" ;;
  redotool <- new_qid ;;
  log (addAction toolbar (Some icon) (JStr "Redo") redo redotool).

(** ** [App.__init__]

    [config] is what [json.load] reads from [config.json]. *)

Definition unsupported : string :=
  "Only these versions are currently supported: {'120': (2, 1), '330': (3, 3)}".

(** [QCoreApplication.instance()], or a new [QApplication] if there is
    none. *)
Definition get_application : M qid :=
  λ s, match qapp s with
       | Some app => (Ok app, s)
       | None => (app <- new_qid ;;
                  log (QApplication_new app) ;;;
                  modify (with_qapp app) ;;;
                  ret app) s
       end.

Definition __init__ (version : string) (width height : Z)
    (viewmode : string) (config : json) : M unit :=
  match VERSIONS !! version with
  | None => raise (Exception unsupported)
  | Some (major, minor) =>
      glFormat <- new_qid ;;
      log (QSurfaceFormat_new glFormat) ;;;
      log (setVersion glFormat major minor) ;;;
      View <- (if String.eqb version "330" then
                 log (setProfile glFormat CoreProfile) ;;; ret View330
               else if String.eqb version "120" then
                 log (setProfile glFormat CompatibilityProfile) ;;; ret View120
               else raise NotImplementedError) ;;
      log (setDefaultFormat glFormat) ;;;
      log (QSurfaceFormat_setDefaultFormat glFormat) ;;;
      app <- get_application ;;
      log (references_new app) ;;;
      modify (with_self (set_width width)) ;;;
      modify (with_self (set_height height)) ;;;
      win <- new_qid ;;
      log (QMainWindow_new win) ;;;
      modify (with_self (set_window win)) ;;;
      v <- new_qid ;;
      log (View_new View viewmode v) ;;;
      modify (with_self (set_view (mkView View viewmode v ∅ false))) ;;;
      log (setCentralWidget win v) ;;;
      log (setContentsMargins win) ;;;
      log Controller_new ;;;
      modify (with_self set_controller) ;;;
      modify (with_self (set__app app)) ;;;
      log (references_add app win) ;;;
      log Selector_new ;;;
      modify (with_self (set_selector Selector_empty)) ;;;
      init_statusbar ;;;
      mb <- lift (py_get config "menubar") ;;
      init_menubar mb ;;;
      tb <- lift (py_get config "toolbar") ;;
      init_toolbar tb ;;;
      resize width height
  end.

End Viewer.

Arguments blank {SelState}.
Arguments mkState {Obj SelState}.

(** * The vocabulary of the properties *)

(** The calls to [obj.init()] in a call log. *)
Definition init_calls (l : list call) : list loc :=
  omap (λ c, match c with called_init o => Some o | _ => None end) l.

(** The four item types [add_menubar_items] has a branch for. *)
Definition item_types : list json :=
  [JStr "separator"; JStr "menu"; JStr "radio"; JStr "action"].

(** [item] has a ['type'] and it is one of the four. *)
Definition known_type (item : json) : Prop :=
  ∃ ty, py_getitem item "type" = Ok ty ∧ ty ∈ item_types.

(** [item] is an item of the configuration [items]: one of [items], or an
    item of the ['items'] of one of them (of a menu or of a radio group),
    and so on. *)
Inductive config_item : json → json → Prop :=
| config_here items l item :
    py_iter items = Ok l → item ∈ l → config_item items item
| config_child items l m sub item :
    py_iter items = Ok l → m ∈ l →
    py_getitem m "items" = Ok sub → config_item sub item →
    config_item items item.

(** [item] is an item of a menu level of [items]: one of [items], or one
    of the items of a menu among them, and so on. *)
Inductive menu_level : json → json → Prop :=
| level_here items l item :
    py_iter items = Ok l → item ∈ l → menu_level items item
| level_menu items l m sub item :
    py_iter items = Ok l → m ∈ l →
    py_getitem m "type" = Ok (JStr "menu") →
    py_getitem m "items" = Ok sub → menu_level sub item →
    menu_level items item.

(** The menubar or toolbar a call creates. *)
Definition created_bar (c : call) : option qid :=
  match c with
  | menuBar _ mb => Some mb
  | addToolBar _ _ tb => Some tb
  | _ => None
  end.

(** What a call says about the rendering backend. *)
Inductive choice : Type :=
| ChoseVersion (major minor : Z)
| ChoseProfile (p : gl_profile)
| ChoseView (cls : view_class).

(** The backend choice a call makes, if it makes one. *)
Definition chosen (c : call) : option choice :=
  match c with
  | setVersion _ major minor => Some (ChoseVersion major minor)
  | setProfile _ p => Some (ChoseProfile p)
  | View_new cls _ _ => Some (ChoseView cls)
  | _ => None
  end.

Section Vocabulary.

Context {Data Kwargs Obj SelState : Type}.
Variable Object_build : Data → Kwargs → result Obj.
Variable Object_init : Obj → result Obj.
Variable Selector_add : SelState → loc → result SelState.
Variable Controller_has : string → bool.

#[local] Abbreviation State := (@State Obj SelState).
#[local] Abbreviation M := (@M Obj SelState).
#[local] Abbreviation add := (add Object_build Object_init Selector_add).
#[local] Abbreviation action := (add_action (Obj:=Obj) (SelState:=SelState) Controller_has).
#[local] Abbreviation radio_action :=
  (add_radio_action (Obj:=Obj) (SelState:=SelState) Controller_has).
#[local] Abbreviation menubar_items :=
  (add_menubar_items (Obj:=Obj) (SelState:=SelState) Controller_has).

(** The identity [Object.build] gives the next object. *)
Definition next_loc (s : State) : loc := fresh (dom (heap s)).

(** A state [add] can meet: the view and the selector are there, and the
    registry holds live objects only. *)
Definition constructed (s : State) : Prop :=
  ∃ v sel, view (self s) = Some v ∧ selector (self s) = Some sel ∧
           dom (objects v) ⊆ dom (heap s).

(** The registry [self.view.objects], empty while there is no view. *)
Definition registry (s : State) : gmap loc loc :=
  from_option objects ∅ (view (self s)).

(** [for (data, kwargs) in inputs: viewer.add(data, **kwargs)] *)
Definition add_all (inputs : list (Data * Kwargs)) : M unit :=
  for_each inputs (λ dk, bind (add (fst dk) (snd dk)) (λ _, ret ())).

(** The loop body of [add_menubar_items], with the function itself for the
    recursive call. *)
Definition menubar_item (parent : qid) (item : json) : M unit :=
  bind (lift (py_getitem item "type")) (λ ty,
  if py_eq_str ty "separator" then
    log (addSeparator parent)
  else if py_eq_str ty "menu" then
    bind (lift (py_getitem item "text")) (λ text,
    bind new_qid (λ menu,
    bind (log (addMenu parent text menu)) (λ _,
    if py_has_key item "items" then
      bind (lift (py_getitem item "items")) (λ sub,
      menubar_items sub menu)
    else ret ())))
  else if py_eq_str ty "radio" then
    bind (getattr_self "window" window) (λ win,
    bind new_qid (λ radio,
    bind (log (QActionGroup_new win true radio)) (λ _,
    bind (lift (py_getitem item "items")) (λ sub,
    bind (lift (py_iter sub)) (λ l',
    for_each l' (radio_action radio parent))))))
  else if py_eq_str ty "action" then
    bind (action item parent) (λ _, ret ())
  else raise NotImplementedError).

(** [m] does not run out of fuel. *)
Definition terminates {A} (m : M A) : Prop :=
  ∀ s, fst (m s) ≠ Raise RecursionError.

(** The backend of the view of the app, if it has a view yet. *)
Definition backend (a : @Self SelState) : option view_class :=
  view_cls <$> view a.

(** The backend choices made so far. *)
Definition choices (s : State) : list choice := omap chosen (calls s).

(** [unchanged f p s s']: from [s] to [s'] the attribute view [f] of the
    instance is the same and no call that [p] selects was added. *)
Definition unchanged {B C} (f : @Self SelState → B) (p : call → option C)
    (s s' : State) : Prop :=
  f (self s') = f (self s) ∧ omap p (calls s') = omap p (calls s).

(** [m] leaves [f] and [p] unchanged, from whatever state it runs. *)
Definition preserves {B C} (f : @Self SelState → B) (p : call → option C)
    {A} (m : M A) : Prop :=
  ∀ s, unchanged f p s (snd (m s)).

End Vocabulary.

(** ** Picking *)

(** Modelled from the spec: the selector's [pick] (module [selector] is not
    part of the sources at hand).  "[pick(x, y)] resolves a single-pixel
    pointer coordinate against the current viewport state and registry
    contents to the nearest visible object under that pixel, or none if no
    object covers it; ties (multiple objects projecting to the same pixel)
    are broken by nearest depth to camera."  An object of the most recently
    presented frame is its handle, whether it is visible, and the depth at
    which it covers a pixel, if it does; depths are depth-buffer values. *)
Record rendered : Type := mkRendered {
  handle : loc;
  visible : bool;
  depth_at : Z → Z → option Z
}.

(** Modelled from the spec: the depth at which [o] is seen at the pixel, if
    it is visible and covers it. *)
Definition covering (o : rendered) (x y : Z) : option Z :=
  if visible o then depth_at o x y else None.

(** Modelled from the spec: the nearest object under the pixel and its
    depth; of two at the same depth, the one earlier in the registry. *)
Fixpoint nearest (scene : list rendered) (x y : Z) : option (loc * Z) :=
  match scene with
  | [] => None
  | o :: rest =>
      match covering o x y, nearest rest x y with
      | Some d, Some (h', d') =>
          if d <=? d' then Some (handle o, d) else Some (h', d')
      | Some d, None => Some (handle o, d)
      | None, r => r
      end
  end.

(** Modelled from the spec: [pick(x, y)], zero or one handle. *)
Definition pick (scene : list rendered) (x y : Z) : option loc :=
  fst <$> nearest scene x y.

(** ** The script [scripts/v120_on_select.py]

    A sample of the collaborators, enough to run the script's two [add]
    calls. *)

Module Script.

Definition point : Type := Z * Z * Z.
Definition color : Type := Z * Z * Z.

Inductive geometry : Type :=
| Polygon (points : list point)
| Capsule (a b : point) (radius : Q)
| Unknown.

(** Modelled from the spec: [Object.build] and the viewer object it makes
    (module [objects] is not part of the sources at hand).  "Unsupported
    variants fail at build time"; a viewer object carries the data it
    wraps, its display options and a GPU-initialised flag that [init]
    sets. *)
Record object : Type := mkObject {
  _data : geometry;
  options : list (string * color);
  initialized : bool
}.

(** Modelled from the spec: [Object.build], failing on an unsupported
    variant and making an uninitialised viewer object otherwise. *)
Definition Object_build (data : geometry) (kwargs : list (string * color))
  : result object :=
  match data with
  | Unknown => Raise (OtherError "UnsupportedGeometryKind")
  | _ => Ok (mkObject data kwargs false)
  end.

(** Modelled from the spec: [obj.init()] sets the GPU-initialised flag. *)
Definition Object_init (o : object) : result object :=
  Ok (mkObject (_data o) (options o) true).

(** Modelled from the spec: the selector (module [selector] is not part of
    the sources at hand) keeps the objects it was given, in order. *)
Definition Selector_add (sel : list loc) (obj : loc) : result (list loc) :=
  Ok (sel ++ [obj]).

(** A controller with three actions. *)
Definition Controller_has (name : string) : bool :=
  bool_decide (name ∈ ["view_front"; "view_top"; "dummy"]).

Definition polygon : geometry := Polygon [(0, 0, 0); (1, 0, 0); (1, 1, 0)].
Definition capsule : geometry := Capsule (0, 0, 0) (0, 0, 1) (3 # 10).

(** The process before [App()]: no attributes, no objects, no Qt
    application yet, a 1920 x 1080 desktop. *)
Definition start : @State object (list loc) :=
  mkState blank ∅ None (1920, 1080) [] O.

(** [viewer = App()] with the defaults, for a given [config.json]. *)
Definition App (config : json) : @M object (list loc) unit :=
  __init__ [] Controller_has App_attrs "120" 800 500 "shaded" config.

Definition viewer_add := add Object_build Object_init Selector_add.

(** The viewer of the script: [App()] run on a configuration without
    menubar and toolbar. *)
Definition viewer : @State object (list loc) := snd (App (JObj []) start).

(** The same viewer once its window is on screen. *)
Definition shown : @State object (list loc) :=
  with_self (λ a, from_option (λ v, set_view
    (mkView (view_cls v) (view_mode v) (view_qid v) (objects v) true) a)
    a (view a)) viewer.

(** The arguments of the script's two [viewer.add] calls. *)
Definition script_inputs : list (geometry * list (string * color)) :=
  [ (polygon, [("linecolor", (0, 0, 1))]);
    (capsule, [("facecolor", (0, 0, 1))]) ].

(** A radio group whose only item has a type of its own. *)
Definition checkbox : json :=
  JObj [ ("type", JStr "checkbox"); ("text", JStr "Top");
         ("action", JStr "view_top"); ("checked", JBool true) ].

Definition radio_config : json :=
  JArr [ JObj [ ("type", JStr "radio"); ("items", JArr [checkbox]) ] ].

(** Two objects of a frame: [near] covers the pixel (10, 10) at depth 3,
    [far] covers the square below (20, 20) at depth 7. *)
Definition near : rendered :=
  mkRendered 0%nat true
    (λ x y, if (x =? 10) && (y =? 10) then Some 3 else None).

Definition far : rendered :=
  mkRendered 1%nat true
    (λ x y, if (x <? 20) && (y <? 20) then Some 7 else None).

(** A selector that takes no objects, and a GPU initialisation that
    fails, for the error paths of [add]. *)
Definition Selector_full (sel : list loc) (obj : loc) : result (list loc) :=
  Raise (OtherError "SelectorFull").

Definition Object_init_fails (o : object) : result object :=
  Raise (OtherError "GpuInitFailure").

(** A toolbar with a separator and a menu, and a menubar with a radio
    group that has no items. *)
Definition toolbar_config : list json :=
  [ JObj [("type", JStr "separator")] ].

Definition submenu : json :=
  JObj [("type", JStr "menu"); ("text", JStr "More")].

Definition bare_radio : json := JObj [("type", JStr "radio")].

(** An action of the radio group that does not say whether it is
    checked. *)
Definition unchecked : json :=
  JObj [("text", JStr "Top"); ("action", JStr "view_top")].

End Script.

(** ** The footprint of the user-interface methods *)

(** The calls that build or drive the window's furniture: status bar,
    menubar, toolbar, menus, actions, icons, geometry, the event loop. *)
Definition ui_call (c : call) : bool :=
  match c with
  | setContentsMargins _ | statusBar _ _ | showMessage _ _
  | menuBar _ _ | setNativeMenuBar _ _
  | addToolBar _ _ _ | setMovable _ _ | setObjectName _ _ | setIconSize _ _ _
  | QIcon_new _ _ | addSeparator _ | addMenu _ _ _ | QActionGroup_new _ _ _
  | addAction _ _ _ _ _ | setCheckable _ _ | setChecked _ _
  | group_addAction _ _ | window_resize _ _ _ | setGeometry _ _ _ _ _
  | window_show _ | exec_ _ => true
  | _ => false
  end.

(** A call that is none of these. *)
Definition non_ui (c : call) : option call :=
  if ui_call c then None else Some c.

(** The attributes of the instance other than [statusbar] and [menubar]. *)
Definition core {SelState} (a : @Self SelState) :=
  (width a, height a, window a, view a, controller a, _app a, selector a).

(** The actions a call log adds to [parent], oldest first. *)
Definition actions_of (parent : qid) (l : list call) : list qid :=
  omap (λ c, match c with
             | addAction p _ _ _ a => if Nat.eqb p parent then Some a else None
             | _ => None
             end) l.

(** The number of [addAction] calls in a call log. *)
Definition action_count (l : list call) : nat :=
  length (omap (λ c, match c with
                     | addAction _ _ _ _ a => Some a
                     | _ => None
                     end) l).

(** The set [app.references] a call log leaves: [app.references = set()]
    empties it, [app.references.add(window)] adds to it. *)
Definition references (app : qid) (l : list call) : gset qid :=
  fold_left (λ refs c,
    match c with
    | references_new a => if Nat.eqb a app then ∅ else refs
    | references_add a w => if Nat.eqb a app then {[w]} ∪ refs else refs
    | _ => refs
    end) l ∅.

(** The calls that make the status bar or write to it. *)
Definition status_call (c : call) : option call :=
  match c with
  | statusBar _ _ | showMessage _ _ => Some c
  | _ => None
  end.

(** The [QApplication]s a call log creates. *)
Definition applications (l : list call) : list qid :=
  omap (λ c, match c with QApplication_new a => Some a | _ => None end) l.

(** ** Running the script *)

Section ScriptRun.

Context {Obj SelState : Type}.
Variable Object_build :
  Script.geometry → list (string * Script.color) → result Obj.
Variable Object_init : Obj → result Obj.
Variable Selector_empty : SelState.
Variable Selector_add : SelState → loc → result SelState.
Variable Controller_has : string → bool.

(** Lines 4 to 13 of [scripts/v120_on_select.py]: the viewer, the two
    [add] calls, and the lookup of [viewer.on] for the decorator.  What
    the script does with [viewer.on] once it has it is [rest]. *)
Definition script (config : json) (rest : callback → @M Obj SelState unit)
  : @M Obj SelState unit :=
  bind (__init__ Selector_empty Controller_has App_attrs
          "120" 800 500 "shaded" config) (λ _,
  bind (add Object_build Object_init Selector_add
          Script.polygon [("linecolor", (0, 0, 1))]) (λ obj,
  bind (add Object_build Object_init Selector_add
          Script.capsule [("facecolor", (0, 0, 1))]) (λ obj,
  bind (getattr_method App_attrs "on") rest))).

End ScriptRun.

(** * Properties *)

(** Unfold the monad's plumbing, leaving the collaborators' results and the
    state's fields to case on. *)
Ltac unfold_m :=
  cbv [bind ret raise lift modify log new_qid getattr_self]; simpl.

Section Steps.

Context {Obj SelState : Type}.
#[local] Abbreviation State := (@State Obj SelState).
#[local] Abbreviation M := (@M Obj SelState).

Lemma bind_ret {A A'} (a : A) (k : A → M A') s : bind (ret a) k s = k a s.
Proof. reflexivity. Qed.

Lemma bind_raise {A A'} e (k : A → M A') s :
  bind (raise e) k s = (Raise e, s).
Proof. reflexivity. Qed.

Lemma bind_ok {A A'} (m : M A) (k : A → M A') s a s' :
  m s = (Ok a, s') → bind m k s = k a s'.
Proof. intros Hm. unfold bind. by rewrite Hm. Qed.

Lemma bind_bind {A A' A''} (m : M A) (k1 : A → M A') (k2 : A' → M A'') s :
  bind (bind m k1) k2 s = bind m (λ a, bind (k1 a) k2) s.
Proof. unfold bind. by destruct (m s) as [[a|e] s1]. Qed.

Lemma bind_log {A} c (k : unit → M A) s :
  bind (log c) k s = k () (with_call c s).
Proof. reflexivity. Qed.

Lemma bind_modify {A} g (k : unit → M A) s :
  bind (modify g) k s = k () (g s).
Proof. reflexivity. Qed.

Lemma bind_new_qid {A} (k : qid → M A) s :
  bind new_qid k s = k (next_qid s) (with_next (S (next_qid s)) s).
Proof. reflexivity. Qed.

Lemma bind_availableGeometry {A} (k : Z * Z → M A) s :
  bind availableGeometry k s = k (screen s) s.
Proof. reflexivity. Qed.

Lemma bind_lift_ok {A A'} (a : A) (k : A → M A') s :
  bind (lift (Ok a)) k s = k a s.
Proof. reflexivity. Qed.

Lemma bind_getattr_self {A A'} name (g : Self → option A) a (k : A → M A') s :
  g (self s) = Some a → bind (getattr_self name g) k s = k a s.
Proof. intros Hg. unfold bind, getattr_self. by rewrite Hg. Qed.

End Steps.

(** Run the leading step of a computation applied to a state. *)
Ltac mstep :=
  match goal with
  | |- context [bind (bind _ _) _ _] => rewrite bind_bind
  | |- context [bind (ret _) _ _] => rewrite bind_ret
  | |- context [bind (raise _) _ _] => rewrite bind_raise
  | |- context [bind (log _) _ _] => rewrite bind_log
  | |- context [bind (modify _) _ _] => rewrite bind_modify
  | |- context [bind new_qid _ _] => rewrite bind_new_qid
  | |- context [bind availableGeometry _ _] => rewrite bind_availableGeometry
  | |- context [bind (lift (Ok _)) _ _] => rewrite bind_lift_ok
  | |- context [bind (getattr_self _ _) _ _] =>
      erewrite bind_getattr_self by (simpl; first [reflexivity | eassumption])
  end.

(** Run the leading steps, deciding comparisons with string literals. *)
Ltac mrun :=
  repeat first [ mstep | progress (simpl (py_eq_str _ _); cbv iota) ].

Section Registry.

Context {Data Kwargs Obj SelState : Type}.
Variable Object_build : Data → Kwargs → result Obj.
Variable Object_init : Obj → result Obj.
Variable Selector_add : SelState → loc → result SelState.

#[local] Abbreviation add := (add Object_build Object_init Selector_add).
#[local] Abbreviation add_each :=
  (add_all Object_build Object_init Selector_add).
#[local] Abbreviation State := (@State Obj SelState).

Lemma next_loc_fresh (s : State) : heap s !! next_loc s = None.
Proof. unfold next_loc. apply not_elem_of_dom. apply is_fresh. Qed.

Lemma init_calls_app l1 l2 : init_calls (l1 ++ l2) = init_calls l1 ++ init_calls l2.
Proof. apply omap_app. Qed.

(** What a successful [add] leaves behind. *)
Lemma add_ok data kwargs (s s' : State) r :
  add data kwargs s = (Ok r, s') →
  ∃ o v sel sel',
    Object_build data kwargs = Ok o ∧
    view (self s) = Some v ∧ selector (self s) = Some sel ∧
    Selector_add sel (next_loc s) = Ok sel' ∧
    r = PyNone ∧
    view (self s') = Some (mkView (view_cls v) (view_mode v) (view_qid v)
                             (<[next_loc s := next_loc s]> (objects v)) (valid v)) ∧
    selector (self s') = Some sel' ∧
    dom (heap s') = {[next_loc s]} ∪ dom (heap s).
Proof.
  unfold add, build, view_objects_setitem, selector_add, view_isValid, init,
    next_loc; unfold_m.
  destruct (Object_build data kwargs) as [o|e]; simpl; [|discriminate].
  destruct (view (self s)) as [v|]; simpl; [|discriminate].
  destruct (selector (self s)) as [sel|]; simpl; [|discriminate].
  destruct (Selector_add sel _) as [sel'|e] eqn:Hsel; simpl; [|discriminate].
  destruct (valid v) eqn:Hvalid; simpl.
  - rewrite lookup_insert_eq.
    destruct (Object_init o) as [o'|e]; simpl; [|discriminate].
    intros [= <- <-]. exists o, v, sel, sel'. simpl. rewrite Hvalid.
    repeat split; try done. rewrite !dom_insert_L. clear. set_solver.
  - intros [= <- <-]. exists o, v, sel, sel'. simpl. rewrite Hvalid.
    repeat split; try done. by rewrite dom_insert_L.
Qed.

Lemma add_constructed data kwargs (s s' : State) r :
  constructed s → add data kwargs s = (Ok r, s') →
  constructed s' ∧
  registry s !! next_loc s = None ∧
  registry s' = <[next_loc s := next_loc s]> (registry s).
Proof.
  intros (v & sel & Hv & Hsel & Hdom) Hadd.
  destruct (add_ok _ _ _ _ _ Hadd)
    as (o & v0 & sel0 & sel' & _ & Hv0 & _ & _ & _ & Hv' & Hsel' & Hheap).
  rewrite Hv in Hv0. injection Hv0 as <-.
  split; [|split].
  - eexists _, _. split; [exact Hv'|]. split; [exact Hsel'|].
    simpl. rewrite dom_insert_L, Hheap. set_solver.
  - unfold registry. rewrite Hv. simpl. apply not_elem_of_dom.
    intros Hin. apply Hdom in Hin. by apply (is_fresh (dom (heap s))).
  - unfold registry. by rewrite Hv, Hv'.
Qed.

(** C6: every successful [add] makes a registry entry of its own, whatever
    the data: after [n] successful calls the registry has [n] more entries
    than before (and has lost none), also when the same data is added
    again. *)
Theorem add_all_distinct_entries inputs : ∀ (s s' : State),
  constructed s → add_each inputs s = (Ok (), s') →
  constructed s' ∧ registry s ⊆ registry s' ∧
  size (registry s') = (size (registry s) + length inputs)%nat.
Proof.
  induction inputs as [|[d k] inputs IH]; intros s s' Hc.
  - intros [= <-]. split; [done|]. split; [done|]. simpl. lia.
  - unfold add_all. simpl. unfold bind at 1 2. simpl.
    destruct (add d k s) as [[r|e] s1] eqn:Hadd; [|discriminate].
    unfold ret at 1. intros Hrest.
    destruct (add_constructed _ _ _ _ _ Hc Hadd) as (Hc1 & Hnew & Hreg).
    destruct (IH _ _ Hc1 Hrest) as (Hc' & Hsub & Hsize).
    split; [done|]. split.
    + etrans; [|exact Hsub]. rewrite Hreg. by apply insert_subseteq.
    + rewrite Hsize, Hreg, map_size_insert_None by done. simpl. lia.
Qed.

(** C3: when [Object.build] raises, [add] raises the same exception and the
    state is the one before the call: no registry entry, nothing given to
    the selector, no call made. *)
Theorem add_build_failure data kwargs (s : State) e :
  Object_build data kwargs = Raise e →
  add data kwargs s = (Raise e, s).
Proof.
  intros Hb. unfold add, build. unfold_m. by rewrite Hb.
Qed.

(** C2: with a valid rendering context [add] calls [obj.init()] on the new
    object, after giving it to the selector; without one it makes no
    [init] call and the object stays as [Object.build] made it. *)
Theorem add_init_timing data kwargs (s : State) v sel o sel' :
  view (self s) = Some v → selector (self s) = Some sel →
  Object_build data kwargs = Ok o →
  Selector_add sel (next_loc s) = Ok sel' →
  let obj := next_loc s in
  let r := fst (add data kwargs s) in
  let s' := snd (add data kwargs s) in
  if valid v then
    calls s' = calls s ++ [called_Selector_add obj; called_init obj] ∧
    match Object_init o with
    | Ok o' => r = Ok PyNone ∧ heap s' = <[obj := o']> (<[obj := o]> (heap s))
    | Raise e => r = Raise e
    end
  else
    r = Ok PyNone ∧
    calls s' = calls s ++ [called_Selector_add obj] ∧
    init_calls (calls s') = init_calls (calls s) ∧
    heap s' = <[obj := o]> (heap s).
Proof.
  intros Hv Hsel Hb Hadd. unfold next_loc in *.
  unfold add, build, view_objects_setitem, selector_add, view_isValid, init.
  unfold_m. rewrite Hb. simpl. rewrite Hv. simpl. rewrite Hsel. simpl.
  rewrite Hadd. simpl. destruct (valid v) eqn:Hvalid; simpl.
  - rewrite lookup_insert_eq. destruct (Object_init o) as [o'|e]; simpl.
    + by rewrite <- app_assoc.
    + by rewrite <- app_assoc.
  - rewrite init_calls_app. simpl. by rewrite app_nil_r.
Qed.

End Registry.

(** ** The menubar *)

Lemma list_max_elem (l : list nat) x : x ∈ l → (x ≤ list_max l)%nat.
Proof.
  induction 1 as [|x y l _ IH]; simpl; lia.
Qed.

Lemma depth_elem l x : x ∈ l → (depth x < depth (JArr l))%nat.
Proof.
  intros Hx. simpl. apply Nat.lt_succ_r, list_max_elem.
  apply list_elem_of_fmap. by exists x.
Qed.

Lemma depth_assoc k kvs v :
  assoc k kvs = Some v → (depth v < depth (JObj kvs))%nat.
Proof.
  intros Hv. simpl. apply Nat.lt_succ_r.
  induction kvs as [|[k' v'] kvs IH]; [done|]. simpl in *.
  destruct (String.eqb k k').
  - injection Hv as ->. lia.
  - specialize (IH Hv). lia.
Qed.

Lemma depth_getitem item k v :
  py_getitem item k = Ok v → (depth v < depth item)%nat.
Proof.
  destruct item; try done. unfold py_getitem.
  destruct (assoc k kvs) eqn:Hk; [|done]. intros [= ->].
  by eapply depth_assoc.
Qed.

Lemma chars_str s x : x ∈ chars s → ∃ c, x = JStr c.
Proof.
  induction s as [|c s IH]; simpl; [by rewrite elem_of_nil|].
  rewrite elem_of_cons. intros [->|H]; eauto.
Qed.

(** What iteration yields is less deep than what is iterated, or a string. *)
Lemma depth_iter items l x :
  py_iter items = Ok l → x ∈ l →
  (depth x < depth items)%nat ∨ ∃ c, x = JStr c.
Proof.
  destruct items; try done; intros [= <-] Hx.
  - right. by eapply chars_str.
  - left. by apply depth_elem.
  - right. apply list_elem_of_fmap in Hx as ([k v] & -> & _). eauto.
Qed.

Lemma py_eq_str_true v x : py_eq_str v x = true ↔ v = JStr x.
Proof.
  destruct v; simpl; try (split; [discriminate|done]).
  rewrite String.eqb_eq. split; [by intros ->|by intros [= ->]].
Qed.

Lemma py_eq_str_false v x : py_eq_str v x = false ↔ v ≠ JStr x.
Proof. rewrite <- py_eq_str_true. by destruct (py_eq_str v x). Qed.

Lemma unknown_type ty :
  ty ∉ item_types →
  py_eq_str ty "separator" = false ∧ py_eq_str ty "menu" = false ∧
  py_eq_str ty "radio" = false ∧ py_eq_str ty "action" = false.
Proof.
  unfold item_types. rewrite !py_eq_str_false, !not_elem_of_cons. tauto.
Qed.

Lemma py_getitem_has_key item k v :
  py_getitem item k = Ok v → py_has_key item k = true.
Proof.
  destruct item; try done. simpl. destruct (assoc k kvs) eqn:Hk; [|done].
  intros _. by apply bool_decide_eq_true_2.
Qed.

Section Menubar.

Context {Obj SelState : Type}.
Variable Controller_has : string → bool.

#[local] Abbreviation State := (@State Obj SelState).
#[local] Abbreviation M := (@M Obj SelState).
#[local] Abbreviation action := (add_action (Obj:=Obj) (SelState:=SelState) Controller_has).
#[local] Abbreviation radio_action :=
  (add_radio_action (Obj:=Obj) (SelState:=SelState) Controller_has).
#[local] Abbreviation items_rec :=
  (add_menubar_items_rec (Obj:=Obj) (SelState:=SelState) Controller_has).
#[local] Abbreviation menubar_items :=
  (add_menubar_items (Obj:=Obj) (SelState:=SelState) Controller_has).
#[local] Abbreviation item_step :=
  (menubar_item (Obj:=Obj) (SelState:=SelState) Controller_has).
#[local] Abbreviation terminates :=
  (terminates (Obj:=Obj) (SelState:=SelState)).

Lemma bind_ext {A A'} (m : M A) (k1 k2 : A → M A') s :
  (∀ a s', k1 a s' = k2 a s') → bind m k1 s = bind m k2 s.
Proof. intros Hk. unfold bind. destruct (m s) as [[a|e] s']; [apply Hk|done]. Qed.

Lemma bind_lift_ext {A A'} (r : result A) (k1 k2 : A → M A') s :
  (∀ a, r = Ok a → k1 a s = k2 a s) → bind (lift r) k1 s = bind (lift r) k2 s.
Proof. intros Hk. unfold bind, lift. destruct r as [a|e]; [by apply Hk|done]. Qed.

Lemma for_each_ext {A} (l : list A) (body1 body2 : A → M unit) :
  (∀ x, x ∈ l → ∀ s, body1 x s = body2 x s) →
  ∀ s, for_each l body1 s = for_each l body2 s.
Proof.
  induction l as [|x l IH]; intros Hb s; [done|]. simpl.
  unfold bind. rewrite Hb by apply list_elem_of_here.
  destruct (body2 x s) as [[[]|e] s']; [|done].
  apply IH. intros y Hy. apply Hb. by apply list_elem_of_further.
Qed.

(** With more fuel than the items are deep, the amount of fuel does not
    matter. *)
Lemma add_menubar_items_rec_fuel f1 : ∀ f2 items parent (s : State),
  (depth items < f1)%nat → (depth items < f2)%nat →
  items_rec f1 items parent s = items_rec f2 items parent s.
Proof.
  induction f1 as [|f1 IH]; intros [|f2] items parent s H1 H2; try lia.
  simpl. destruct (negb (truthy items)); [done|].
  apply bind_lift_ext. intros l Hl. apply for_each_ext.
  intros item Hitem s1.
  apply bind_lift_ext. intros ty Hty.
  destruct (py_eq_str ty "separator"); [done|].
  destruct (py_eq_str ty "menu"); [|done].
  apply bind_lift_ext. intros text _.
  apply bind_ext. intros menu s2. apply bind_ext. intros [] s3.
  destruct (py_has_key item "items"); [|done].
  apply bind_lift_ext. intros sub Hsub.
  apply depth_getitem in Hsub.
  destruct (depth_iter _ _ _ Hl Hitem) as [Hd|[c ->]]; [|done].
  apply IH; lia.
Qed.

(** The equation [add_menubar_items] is written by. *)
Lemma add_menubar_items_eq items parent (s : State) :
  menubar_items items parent s =
  (if negb (truthy items) then ret ()
   else bind (lift (py_iter items)) (λ l, for_each l (item_step parent))) s.
Proof.
  unfold add_menubar_items. simpl.
  destruct (negb (truthy items)); [done|].
  apply bind_lift_ext. intros l Hl. apply for_each_ext.
  intros item Hitem s1. unfold menubar_item.
  apply bind_lift_ext. intros ty Hty.
  destruct (py_eq_str ty "separator"); [done|].
  destruct (py_eq_str ty "menu"); [|done].
  apply bind_lift_ext. intros text _.
  apply bind_ext. intros menu s2. apply bind_ext. intros [] s3.
  destruct (py_has_key item "items"); [|done].
  apply bind_lift_ext. intros sub Hsub.
  apply depth_getitem in Hsub.
  destruct (depth_iter _ _ _ Hl Hitem) as [Hd|[c ->]]; [|done].
  unfold add_menubar_items. apply add_menubar_items_rec_fuel; lia.
Qed.

Lemma add_menubar_items_cons item rest parent (s : State) :
  menubar_items (JArr (item :: rest)) parent s =
  bind (item_step parent item)
       (λ _, menubar_items (JArr rest) parent) s.
Proof.
  rewrite add_menubar_items_eq. simpl. mstep. simpl.
  apply bind_ext. intros [] s1. rewrite add_menubar_items_eq.
  by destruct rest.
Qed.

Lemma add_menubar_items_app pre post parent (s s1 : State) :
  menubar_items (JArr pre) parent s = (Ok (), s1) →
  menubar_items (JArr (pre ++ post)) parent s
    = menubar_items (JArr post) parent s1.
Proof.
  revert s. induction pre as [|item pre IH]; intros s.
  - rewrite add_menubar_items_eq. simpl. by intros [= ->].
  - simpl. rewrite !add_menubar_items_cons. unfold bind.
    destruct (item_step parent item s) as [[[]|e] s2]; [|done].
    apply IH.
Qed.

Lemma for_each_ok_elem {A} (l : list A) (body : A → M unit) x :
  x ∈ l → ∀ s s', for_each l body s = (Ok (), s') →
  ∃ s1 s2, body x s1 = (Ok (), s2).
Proof.
  induction 1 as [x l|x y l _ IH]; intros s s'; simpl; unfold bind;
    destruct (body _ s) as [[[]|e] s1] eqn:Hb; try done.
  - eauto.
  - apply IH.
Qed.

Lemma menubar_item_ok parent item (s s' : State) :
  item_step parent item s = (Ok (), s') → known_type item.
Proof.
  unfold menubar_item, bind at 1, lift.
  destruct (py_getitem item "type") as [ty|e] eqn:Hty; simpl; [|done].
  intros Hrun. exists ty. split; [done|]. unfold item_types.
  rewrite !elem_of_cons, <- !py_eq_str_true.
  destruct (py_eq_str ty "separator"); [tauto|].
  destruct (py_eq_str ty "menu"); [tauto|].
  destruct (py_eq_str ty "radio"); [tauto|].
  destruct (py_eq_str ty "action"); [tauto|]. done.
Qed.

Lemma menubar_item_menu_ok parent m sub (s s' : State) :
  py_getitem m "type" = Ok (JStr "menu") → py_getitem m "items" = Ok sub →
  item_step parent m s = (Ok (), s') →
  ∃ menu s1 s2, menubar_items sub menu s1 = (Ok (), s2).
Proof.
  intros Hty Hsub. unfold menubar_item. rewrite Hty. mstep. simpl.
  unfold bind at 1, lift. destruct (py_getitem m "text"); simpl; [|done].
  repeat mstep. rewrite (py_getitem_has_key _ _ _ Hsub), Hsub.
  cbv [bind]. eauto.
Qed.

Lemma iter_falsy items l :
  truthy items = false → py_iter items = Ok l → l = [].
Proof.
  destruct items as [| | |c|l'|kvs]; try done; simpl.
  - destruct c; [by intros _ [= <-]|done].
  - destruct l'; [by intros _ [= <-]|done].
  - destruct kvs; [by intros _ [= <-]|done].
Qed.

Lemma menu_level_known items item :
  menu_level items item →
  ∀ parent (s s' : State),
    menubar_items items parent s = (Ok (), s') → known_type item.
Proof.
  induction 1 as [items l item Hl Hitem|items l m sub item Hl Hm Hty Hsub _ IH];
    intros parent s s'; rewrite add_menubar_items_eq;
    destruct (truthy items) eqn:Ht; simpl.
  - rewrite Hl. mstep. intros Hrun.
    destruct (for_each_ok_elem _ _ _ Hitem _ _ Hrun) as (s1 & s2 & Hb).
    by eapply menubar_item_ok.
  - rewrite (iter_falsy _ _ Ht Hl) in Hitem. by apply elem_of_nil in Hitem.
  - rewrite Hl. mstep. intros Hrun.
    destruct (for_each_ok_elem _ _ _ Hm _ _ Hrun) as (s1 & s2 & Hb).
    destruct (menubar_item_menu_ok _ _ _ _ _ Hty Hsub Hb) as (menu & s3 & s4 & Hr).
    by eapply IH.
  - rewrite (iter_falsy _ _ Ht Hl) in Hm. by apply elem_of_nil in Hm.
Qed.

(** *** No [RecursionError]: the fuel never runs out *)

Lemma terminates_pure {A} (m : M A) :
  (∀ s, ∃ a, fst (m s) = Ok a) → terminates m.
Proof. intros Hm s. destruct (Hm s) as [a Ha]. by rewrite Ha. Qed.

Lemma terminates_raise {A} e : e ≠ RecursionError → terminates (@raise Obj SelState A e).
Proof. intros He s. simpl. congruence. Qed.

Lemma terminates_bind {A A'} (m : M A) (k : A → M A') :
  terminates m → (∀ a, terminates (k a)) → terminates (bind m k).
Proof.
  intros Hm Hk s. unfold bind. specialize (Hm s).
  destruct (m s) as [[a|e] s1]; [apply Hk|simpl in *; congruence].
Qed.

Lemma terminates_bind_lift {A A'} (r : result A) (k : A → M A') :
  r ≠ Raise RecursionError → (∀ a, r = Ok a → terminates (k a)) →
  terminates (bind (lift r) k).
Proof.
  intros Hr Hk s. unfold bind, lift.
  destruct r as [a|e]; [by apply Hk|simpl; congruence].
Qed.

Lemma terminates_getattr_self {A} name (g : Self → option A) :
  terminates (getattr_self name g).
Proof.
  intros s. unfold getattr_self. destruct (g (self s)); simpl; congruence.
Qed.

Lemma terminates_for_each {A} (l : list A) (body : A → M unit) :
  (∀ x, x ∈ l → terminates (body x)) → terminates (for_each l body).
Proof.
  induction l as [|x l IH]; intros Hb; simpl; [done|].
  apply terminates_bind; [apply Hb, list_elem_of_here|].
  intros _. apply IH. intros y Hy. by apply Hb, list_elem_of_further.
Qed.

Lemma py_getitem_terminates v k : py_getitem v k ≠ Raise RecursionError.
Proof. destruct v; simpl; try done. by destruct (assoc k kvs). Qed.

Lemma py_get_terminates v k : py_get v k ≠ Raise RecursionError.
Proof. by destruct v. Qed.

Lemma py_iter_terminates v : py_iter v ≠ Raise RecursionError.
Proof. by destruct v. Qed.

Lemma py_mapping_terminates v : py_mapping v ≠ Raise RecursionError.
Proof. by destruct v. Qed.

Ltac terminates_step :=
  first
    [ assumption
    | apply terminates_getattr_self
    | apply terminates_raise; discriminate
    | apply terminates_pure; intros ?; eexists; reflexivity
    | apply terminates_bind_lift;
        [first [ apply py_getitem_terminates | apply py_get_terminates
               | apply py_iter_terminates | apply py_mapping_terminates ]
        |intros ? ?]
    | apply terminates_bind; [|intros ?]
    | match goal with
      | |- terminates (if ?b then _ else _) => destruct b
      end ].

Lemma add_action_terminates item parent : terminates (action item parent).
Proof.
  unfold add_action, QIcon, getattr_controller. repeat terminates_step.
  destruct a1; repeat terminates_step.
Qed.

Lemma add_radio_action_terminates radio parent item :
  terminates (radio_action radio parent item).
Proof.
  unfold add_radio_action. pose proof (add_action_terminates item parent).
  repeat terminates_step.
Qed.

Lemma add_menubar_items_rec_terminates fuel : ∀ items parent,
  (depth items < fuel)%nat → terminates (items_rec fuel items parent).
Proof.
  induction fuel as [|fuel IH]; intros items parent Hd; [lia|]. simpl.
  destruct (negb (truthy items)); [by apply terminates_pure; eexists|].
  apply terminates_bind_lift; [apply py_iter_terminates|]. intros l Hl.
  apply terminates_for_each. intros item Hitem.
  apply terminates_bind_lift; [apply py_getitem_terminates|]. intros ty Hty.
  destruct (depth_iter _ _ _ Hl Hitem) as [Hlt|[c ->]]; [|done].
  pose proof (add_action_terminates item parent).
  repeat terminates_step.
  - apply IH. match goal with H : py_getitem item "items" = _ |- _ =>
      apply depth_getitem in H end. lia.
  - apply terminates_for_each. intros child _.
    apply add_radio_action_terminates.
Qed.

Lemma add_menubar_items_terminates items parent :
  terminates (menubar_items items parent).
Proof. apply add_menubar_items_rec_terminates. lia. Qed.

Lemma menubar_unknown_type parent item ty (s : State) :
  py_getitem item "type" = Ok ty → ty ∉ item_types →
  item_step parent item s = (Raise NotImplementedError, s).
Proof.
  intros Hty Hunknown. unfold menubar_item. rewrite Hty. mstep.
  destruct (unknown_type _ Hunknown) as (-> & -> & -> & ->). done.
Qed.

(** C7, as the code has it: at a menu level (the menubar's list, or the
    items of a menu) a separator is added as a separator, a menu is added
    and its items processed the same way, a radio group gets an exclusive
    action group whose items are each added by [add_radio_action], without
    a look at their type, an action is added by [add_action], and an item
    of any other type raises [NotImplementedError] when the loop reaches
    it, with nothing added for it.  A menubar that was built has a known
    type on every item of every menu level.  The recursion ends. *)
Theorem menubar_item_types items parent (s : State) :
  (∀ s', menubar_items items parent s = (Ok (), s') →
         ∀ item, menu_level items item → known_type item) ∧
  (∀ pre item post ty s1,
     menubar_items (JArr pre) parent s = (Ok (), s1) →
     py_getitem item "type" = Ok ty → ty ∉ item_types →
     menubar_items (JArr (pre ++ item :: post)) parent s
       = (Raise NotImplementedError, s1)) ∧
  (∀ item rest,
     py_getitem item "type" = Ok (JStr "separator") →
     menubar_items (JArr (item :: rest)) parent s
       = menubar_items (JArr rest) parent (with_call (addSeparator parent) s)) ∧
  (∀ item rest text sub,
     py_getitem item "type" = Ok (JStr "menu") →
     py_getitem item "text" = Ok text →
     py_get item "items" = Ok sub →
     let menu := next_qid s in
     menubar_items (JArr (item :: rest)) parent s
       = bind (menubar_items sub menu) (λ _, menubar_items (JArr rest) parent)
           (with_call (addMenu parent text menu) (with_next (S menu) s))) ∧
  (∀ item rest sub children win,
     py_getitem item "type" = Ok (JStr "radio") →
     window (self s) = Some win →
     py_getitem item "items" = Ok sub → py_iter sub = Ok children →
     let radio := next_qid s in
     menubar_items (JArr (item :: rest)) parent s
       = bind (for_each children (radio_action radio parent))
           (λ _, menubar_items (JArr rest) parent)
           (with_call (QActionGroup_new win true radio)
              (with_next (S radio) s))) ∧
  (∀ item rest,
     py_getitem item "type" = Ok (JStr "action") →
     menubar_items (JArr (item :: rest)) parent s
       = bind (action item parent) (λ _, menubar_items (JArr rest) parent) s) ∧
  fst (menubar_items items parent s) ≠ Raise RecursionError.
Proof.
  split; [|split; [|split; [|split; [|split; [|split]]]]].
  - intros s' Hrun item Hitem. by eapply menu_level_known.
  - intros pre item post ty s1 Hpre Hty Hunknown.
    rewrite (add_menubar_items_app _ _ _ _ _ Hpre), add_menubar_items_cons.
    unfold bind. by rewrite (menubar_unknown_type _ _ _ _ Hty Hunknown).
  - intros item rest Hty. rewrite add_menubar_items_cons.
    unfold menubar_item. rewrite Hty. by mrun.
  - intros item rest text sub Hty Htext Hsub menu.
    rewrite add_menubar_items_cons. unfold menubar_item.
    rewrite Hty, Htext. mrun.
    destruct item as [| | | | |kvs]; try done. simpl in Hsub. simpl py_has_key.
    unfold py_getitem.
    destruct (assoc "items" kvs) as [v|] eqn:Hitems;
      injection Hsub as <-; simpl.
    + by mrun.
    + mrun. unfold bind. by rewrite (add_menubar_items_eq JNull).
  - intros item rest sub children win Hty Hwin Hsub Hchildren radio.
    rewrite add_menubar_items_cons. unfold menubar_item.
    rewrite Hty. mrun. rewrite Hsub. mrun. rewrite Hchildren. by mrun.
  - intros item rest Hty. rewrite add_menubar_items_cons.
    unfold menubar_item. rewrite Hty. mrun.
    apply bind_ext. intros a s1. by mstep.
  - apply add_menubar_items_terminates.
Qed.

End Menubar.

(** ** What a computation leaves unchanged *)

Section Unchanged.

Context {Obj SelState : Type} {B C : Type}.
Variable f : @Self SelState → B.
Variable p : call → option C.

#[local] Abbreviation State := (@State Obj SelState).
#[local] Abbreviation M := (@M Obj SelState).
#[local] Abbreviation unchanged := (unchanged (Obj:=Obj) f p).
#[local] Abbreviation preserves := (preserves (Obj:=Obj) f p).

Lemma unchanged_refl s : unchanged s s.
Proof. by split. Qed.

Lemma unchanged_trans s1 s2 s3 :
  unchanged s1 s2 → unchanged s2 s3 → unchanged s1 s3.
Proof. intros [? ?] [? ?]. split; congruence. Qed.

Lemma preserves_pure {A} (m : M A) : (∀ s, snd (m s) = s) → preserves m.
Proof. intros Hm s. rewrite Hm. apply unchanged_refl. Qed.

Lemma preserves_ret {A} (a : A) : preserves (ret a).
Proof. intros s. apply unchanged_refl. Qed.

Lemma preserves_raise {A} e : preserves (@raise Obj SelState A e).
Proof. intros s. apply unchanged_refl. Qed.

Lemma preserves_lift {A} (r : result A) : preserves (lift r).
Proof. intros s. apply unchanged_refl. Qed.

Lemma preserves_getattr_self {A} name (g : Self → option A) :
  preserves (getattr_self name g).
Proof.
  intros s. unfold getattr_self. destruct (g (self s)); apply unchanged_refl.
Qed.

Lemma preserves_new_qid : preserves new_qid.
Proof. intros s. by split. Qed.

Lemma preserves_log c : p c = None → preserves (log c).
Proof.
  intros Hc s. split; [done|]. simpl. rewrite omap_app. simpl. rewrite Hc.
  apply app_nil_r.
Qed.

Lemma preserves_set g : (∀ a, f (g a) = f a) → preserves (modify (with_self g)).
Proof. intros Hg s. split; [apply Hg|done]. Qed.

Lemma preserves_bind {A A'} (m : M A) (k : A → M A') :
  preserves m → (∀ a, preserves (k a)) → preserves (bind m k).
Proof.
  intros Hm Hk s. unfold bind. specialize (Hm s).
  destruct (m s) as [[a|e] s1]; simpl in *; [|done].
  eapply unchanged_trans; [exact Hm|apply Hk].
Qed.

Lemma preserves_if {A} (b : bool) (m1 m2 : M A) :
  preserves m1 → preserves m2 → preserves (if b then m1 else m2).
Proof. by destruct b. Qed.

Lemma preserves_for_each {A} (l : list A) (body : A → M unit) :
  (∀ x, preserves (body x)) → preserves (for_each l body).
Proof.
  intros Hb. induction l as [|x l IH]; simpl.
  - apply preserves_ret.
  - apply preserves_bind; [apply Hb|]. intros _. apply IH.
Qed.

End Unchanged.

(** Decompose a computation into steps that leave [f] and [p] alone;
    computations already dealt with are in the hint database. *)
Create HintDb preserves.

Ltac preserves_step :=
  first
    [ solve [auto 1 with preserves nocore]
    | apply preserves_ret | apply preserves_raise | apply preserves_lift
    | apply preserves_getattr_self | apply preserves_new_qid
    | apply preserves_log; reflexivity
    | apply preserves_set; intros ?; reflexivity
    | apply preserves_bind; [|intros ?]
    | apply preserves_if
    | apply preserves_for_each; intros ?
    | match goal with
      | |- preserves _ _ (match ?x with _ => _ end) => is_var x; destruct x
      end ].
Ltac preserves_tac := repeat preserves_step.

(** ** The rendering backend *)

Section Backend.

Context {Data Kwargs Obj SelState : Type}.
Variable Object_build : Data → Kwargs → result Obj.
Variable Object_init : Obj → result Obj.
Variable Selector_empty : SelState.
Variable Selector_add : SelState → loc → result SelState.
Variable Controller_has : string → bool.
Variable class_attrs : list string.

#[local] Abbreviation State := (@State Obj SelState).
#[local] Abbreviation M := (@M Obj SelState).

#[local] Abbreviation same_backend :=
  (preserves (Obj:=Obj) (SelState:=SelState) backend chosen).

Lemma same_backend_add_action item parent :
  same_backend (add_action Controller_has item parent).
Proof. unfold add_action, QIcon, getattr_controller. preserves_tac. Qed.
#[local] Hint Resolve same_backend_add_action : preserves.

Lemma same_backend_add_radio_action radio parent item :
  same_backend (add_radio_action Controller_has radio parent item).
Proof. unfold add_radio_action. preserves_tac. Qed.
#[local] Hint Resolve same_backend_add_radio_action : preserves.

Lemma same_backend_add_menubar_items_rec fuel : ∀ items parent,
  same_backend (add_menubar_items_rec Controller_has fuel items parent).
Proof.
  induction fuel as [|fuel IH]; intros items parent; simpl.
  - preserves_tac.
  - preserves_tac.
Qed.
#[local] Hint Resolve same_backend_add_menubar_items_rec : preserves.

Lemma same_backend_add_menubar_items items parent :
  same_backend (add_menubar_items Controller_has items parent).
Proof. apply same_backend_add_menubar_items_rec. Qed.
#[local] Hint Resolve same_backend_add_menubar_items : preserves.

Lemma same_backend_add_toolbar_items items parent :
  same_backend (add_toolbar_items Controller_has items parent).
Proof. unfold add_toolbar_items. preserves_tac. Qed.

Lemma same_backend_init_statusbar : same_backend init_statusbar.
Proof. unfold init_statusbar. preserves_tac. Qed.

Lemma same_backend_init_menubar items :
  same_backend (init_menubar Controller_has items).
Proof. unfold init_menubar. preserves_tac. Qed.

Lemma same_backend_getattr_method name :
  same_backend (getattr_method class_attrs name).
Proof.
  apply preserves_pure. intros s. unfold getattr_method. by case_bool_decide.
Qed.
#[local] Hint Resolve same_backend_getattr_method : preserves.

Lemma same_backend_init_toolbar items :
  same_backend (init_toolbar class_attrs items).
Proof. unfold init_toolbar, QIcon. preserves_tac. Qed.

Lemma same_backend_resize width height : same_backend (resize width height).
Proof. unfold resize. preserves_tac. Qed.

Lemma same_backend_show : same_backend show.
Proof. unfold show. preserves_tac. Qed.

Lemma same_backend_init obj : same_backend (init Object_init obj).
Proof.
  unfold init. preserves_tac. intros s.
  destruct (heap s !! obj) as [o|]; [|by split].
  by destruct (Object_init o); split.
Qed.
#[local] Hint Resolve same_backend_init : preserves.

Lemma same_backend_view_objects_setitem key obj :
  same_backend (view_objects_setitem key obj).
Proof.
  intros s. unfold view_objects_setitem. unfold_m.
  destruct (view (self s)) as [v|] eqn:Hv; split; simpl; try done.
  unfold backend. simpl. by rewrite Hv.
Qed.
#[local] Hint Resolve same_backend_view_objects_setitem : preserves.

Lemma same_backend_add data kwargs :
  same_backend (add Object_build Object_init Selector_add data kwargs).
Proof. unfold add, build, selector_add, view_isValid. preserves_tac. Qed.

(** *** Construction *)

Lemma VERSIONS_120 : VERSIONS !! "120" = Some (2, 1).
Proof. reflexivity. Qed.

Lemma VERSIONS_330 : VERSIONS !! "330" = Some (3, 3).
Proof. reflexivity. Qed.

Lemma VERSIONS_other version :
  version ≠ "120" → version ≠ "330" → VERSIONS !! version = None.
Proof.
  intros H1 H2. unfold VERSIONS.
  rewrite lookup_insert_ne by done. by rewrite lookup_singleton_ne.
Qed.

#[local] Abbreviation construct :=
  (__init__ (Obj:=Obj) Selector_empty Controller_has class_attrs).

Lemma init_unsupported version width height viewmode config (s : State) :
  version ≠ "120" → version ≠ "330" →
  construct version width height viewmode config s
    = (Raise (Exception unsupported), s).
Proof.
  intros H1 H2. unfold __init__. by rewrite VERSIONS_other.
Qed.

Lemma bind_get_application {A} (k : qid → M A) (s : State) :
  bind get_application k s =
  match qapp s with
  | Some app => k app s
  | None => k (next_qid s)
              (with_qapp (next_qid s)
                 (with_call (QApplication_new (next_qid s))
                    (with_next (S (next_qid s)) s)))
  end.
Proof. unfold bind, get_application. by destruct (qapp s). Qed.

(** C4: for a version other than ['120'] and ['330'] the constructor
    raises at once: the state after is the state before, so nothing has
    been created or assigned. *)
Theorem init_rejects_unsupported_version
    version width height viewmode config (s : State) :
  version ≠ "120" → version ≠ "330" →
  construct version width height viewmode config s
    = (Raise (Exception unsupported), s).
Proof. apply init_unsupported. Qed.

(** What is left of the constructor once the attributes are assigned
    leaves the backend alone. *)
Ltac init_tail :=
  match goal with
  | |- context [snd (bind init_statusbar ?k ?s)] =>
      let H := fresh "Htail" in
      assert (H : same_backend (bind init_statusbar k)) by preserves_tac;
      destruct (H s) as [-> Hcalls]; unfold choices; rewrite Hcalls
  end.

(** C5: the constructor makes the backend choice from the version: ['120']
    gives surface version (2, 1), the compatibility profile and [View120],
    ['330'] gives (3, 3), the core profile and [View330], anything else
    gives no backend at all; and no method of [App] changes the choice or
    makes another. *)
Theorem backend_chosen_once width height viewmode config (s : State) :
  let run version := snd (construct version width height viewmode config s) in
  (choices (run "120")
     = choices s ++ [ChoseVersion 2 1; ChoseProfile CompatibilityProfile;
                     ChoseView View120] ∧
   backend (self (run "120")) = Some View120) ∧
  (choices (run "330")
     = choices s ++ [ChoseVersion 3 3; ChoseProfile CoreProfile;
                     ChoseView View330] ∧
   backend (self (run "330")) = Some View330) ∧
  (∀ version, version ≠ "120" → version ≠ "330" → run version = s) ∧
  (∀ data kwargs,
     same_backend (add Object_build Object_init Selector_add data kwargs)) ∧
  (∀ w h, same_backend (resize w h)) ∧
  same_backend show ∧
  same_backend init_statusbar ∧
  (∀ items, same_backend (init_menubar Controller_has items)) ∧
  (∀ items, same_backend (init_toolbar class_attrs items)) ∧
  (∀ items parent, same_backend (add_menubar_items Controller_has items parent)) ∧
  (∀ items parent, same_backend (add_toolbar_items Controller_has items parent)) ∧
  (∀ item parent, same_backend (add_action Controller_has item parent)).
Proof.
  intros run. subst run. cbv beta.
  split; [|split; [|split]].
  - unfold __init__. rewrite VERSIONS_120. simpl String.eqb. cbv iota.
    repeat mstep. rewrite bind_get_application. simpl (qapp _).
    destruct (qapp s); repeat mstep; init_tail; simpl;
      rewrite ?omap_app; simpl; by rewrite ?app_nil_r, <- ?app_assoc.
  - unfold __init__. rewrite VERSIONS_330. simpl String.eqb. cbv iota.
    repeat mstep. rewrite bind_get_application. simpl (qapp _).
    destruct (qapp s); repeat mstep; init_tail; simpl;
      rewrite ?omap_app; simpl; by rewrite ?app_nil_r, <- ?app_assoc.
  - intros version H1 H2. by rewrite init_unsupported.
  - split; [exact same_backend_add|].
    split; [exact same_backend_resize|].
    split; [exact same_backend_show|].
    split; [exact same_backend_init_statusbar|].
    split; [exact same_backend_init_menubar|].
    split; [exact same_backend_init_toolbar|].
    split; [exact same_backend_add_menubar_items|].
    split; [exact same_backend_add_toolbar_items|].
    exact same_backend_add_action.
Qed.

(** C9: a configuration whose ['menubar'] and ['toolbar'] entries are
    missing or empty is no error: [init_menubar] and [init_toolbar] return
    at once, and the constructor completes without creating a menubar or a
    toolbar. *)
Theorem absent_bars_are_skipped version width height viewmode kvs (s : State) :
  version = "120" ∨ version = "330" →
  truthy (default JNull (assoc "menubar" kvs)) = false →
  truthy (default JNull (assoc "toolbar" kvs)) = false →
  let r := construct version width height viewmode (JObj kvs) s in
  fst r = Ok () ∧
  menubar (self (snd r)) = menubar (self s) ∧
  omap created_bar (calls (snd r)) = omap created_bar (calls s) ∧
  (∀ items (s0 : State), truthy items = false →
     init_menubar Controller_has items s0 = (Ok (), s0) ∧
     init_toolbar class_attrs items s0 = (Ok (), s0)).
Proof.
  intros Hversion Hmb Htb r. subst r.
  assert (Hskip : ∀ items (s0 : State), truthy items = false →
     init_menubar Controller_has items s0 = (Ok (), s0) ∧
     init_toolbar class_attrs items s0 = (Ok (), s0)).
  { intros items s0 Hitems. unfold init_menubar, init_toolbar.
    by rewrite Hitems. }
  assert (Hrest : ∀ (s1 : State) win app,
    window (self s1) = Some win → _app (self s1) = Some app →
    ∃ s', bind init_statusbar (λ _,
        bind (lift (py_get (JObj kvs) "menubar")) (λ mb,
        bind (init_menubar Controller_has mb) (λ _,
        bind (lift (py_get (JObj kvs) "toolbar")) (λ tb,
        bind (init_toolbar class_attrs tb) (λ _,
        resize width height))))) s1 = (Ok (), s') ∧
      menubar (self s') = menubar (self s1) ∧
      omap created_bar (calls s') = omap created_bar (calls s1)).
  { intros s1 win app Hwin Happ. eexists. split.
    - unfold init_statusbar. repeat mstep. simpl (py_get _ _). mstep.
      erewrite bind_ok by (apply Hskip, Hmb). mstep.
      erewrite bind_ok by (apply Hskip, Htb).
      unfold resize. repeat mstep. reflexivity.
    - simpl. rewrite !omap_app. simpl. by rewrite !app_nil_r. }
  assert (Hinit : ∃ s', construct version width height viewmode (JObj kvs) s
                          = (Ok (), s') ∧
      menubar (self s') = menubar (self s) ∧
      omap created_bar (calls s') = omap created_bar (calls s)).
  { destruct Hversion as [-> | ->]; unfold __init__;
      rewrite ?VERSIONS_120, ?VERSIONS_330; simpl String.eqb; cbv iota;
      repeat mstep; rewrite bind_get_application; simpl (qapp _);
      destruct (qapp s); repeat mstep.
    all: match goal with
         | |- context [bind init_statusbar _ ?s1] =>
             edestruct (Hrest s1) as (s' & -> & Hm & Hc);
               [reflexivity|reflexivity|]
         end.
    all: eexists; split; [reflexivity|]; rewrite Hm, Hc; simpl;
      rewrite ?omap_app; simpl; by rewrite ?app_nil_r. }
  destruct Hinit as (s' & -> & Hm & Hc). by simpl.
Qed.

(** *** The toolbar *)

Lemma named_elem {A} name (o : option A) x : x ∈ named name o → x = name.
Proof.
  destruct o; simpl; [by rewrite list_elem_of_singleton|by rewrite elem_of_nil].
Qed.

Lemma instance_attrs_names (a : @Self SelState) x :
  x ∈ instance_attrs a →
  x ∈ ["width"; "height"; "window"; "view"; "controller"; "_app";
       "selector"; "statusbar"; "menubar"].
Proof.
  unfold instance_attrs. rewrite !elem_of_app.
  intros [H|[H|[H|[H|[H|[H|[H|[H|H]]]]]]]]; apply named_elem in H; subst;
    repeat first [ apply list_elem_of_here | apply list_elem_of_further ].
Qed.

Lemma App_lacks name (a : @Self SelState) :
  name ∉ ["width"; "height"; "window"; "view"; "controller"; "_app";
          "selector"; "statusbar"; "menubar"] →
  name ∉ App_attrs →
  name ∉ (instance_attrs a ++ App_attrs).
Proof.
  intros H1 H2. rewrite elem_of_app. intros [H|H]; [|done].
  apply H1. by apply (instance_attrs_names a).
Qed.

Lemma bind_getattr_method {A} cls name (k : callback → M A) (s : State) :
  bind (getattr_method cls name) k s =
  if bool_decide (name ∈ instance_attrs (self s) ++ cls)
  then k (BoundMethod name) s
  else (Raise (AttributeError name), s).
Proof. unfold bind, getattr_method. by case_bool_decide. Qed.

(** C10: [init_toolbar] looks at its items only to see that they are
    truthy.  What it builds is a toolbar "Tools" with an Undo and a Redo
    action bound to [self.undo] and [self.redo]; class [App] defines
    neither, so on an [App] the lookup of [self.undo] raises
    [AttributeError], after the toolbar and the icon have been created. *)
Theorem toolbar_is_undo_redo items (s : State) win :
  truthy items = true → window (self s) = Some win →
  let tb := next_qid s in
  let created :=
    [ addToolBar win "Tools" tb; setMovable tb false;
      setObjectName tb "Tools"; setIconSize tb 24 24;
      QIcon_new (JStr (ICONS +:+ "/undo-solid.svg")) (S tb) ] in
  (∀ cls items', truthy items' = true →
     init_toolbar cls items' s = init_toolbar cls items s) ∧
  ("undo" ∈ class_attrs → "redo" ∈ class_attrs →
   fst (init_toolbar class_attrs items s) = Ok () ∧
   calls (snd (init_toolbar class_attrs items s)) =
     calls s ++ created ++
     [ addAction tb (Some (S tb)) (JStr "Undo") (BoundMethod "undo") (S (S tb));
       QIcon_new (JStr (ICONS +:+ "/redo-solid.svg")) (S (S (S tb)));
       addAction tb (Some (S (S (S tb)))) (JStr "Redo") (BoundMethod "redo")
         (S (S (S (S tb)))) ]) ∧
  ("undo" ∉ instance_attrs (self s) ++ App_attrs) ∧
  ("redo" ∉ instance_attrs (self s) ++ App_attrs) ∧
  fst (init_toolbar App_attrs items s) = Raise (AttributeError "undo") ∧
  calls (snd (init_toolbar App_attrs items s)) = calls s ++ created.
Proof.
  intros Hitems Hwin tb created.
  assert (Hundo : "undo" ∉ instance_attrs (self s) ++ App_attrs).
  { apply App_lacks; unfold App_attrs; rewrite !not_elem_of_cons;
      repeat split; first [discriminate | apply not_elem_of_nil]. }
  assert (Hredo : "redo" ∉ instance_attrs (self s) ++ App_attrs).
  { apply App_lacks; unfold App_attrs; rewrite !not_elem_of_cons;
      repeat split; first [discriminate | apply not_elem_of_nil]. }
  split; [|split; [|split; [|split]]]; try done.
  - intros cls items' Hitems'. unfold init_toolbar. by rewrite Hitems, Hitems'.
  - intros Hu Hr. unfold init_toolbar, QIcon. rewrite Hitems. cbn [negb].
    repeat mstep. rewrite bind_getattr_method.
    rewrite bool_decide_eq_true_2 by (simpl; apply elem_of_app; by right).
    repeat mstep. rewrite bind_getattr_method.
    rewrite bool_decide_eq_true_2 by (simpl; apply elem_of_app; by right).
    repeat mstep. unfold log, modify. simpl.
    split; [done|]. by rewrite <- !app_assoc.
  - unfold init_toolbar, QIcon. rewrite Hitems. cbn [negb].
    repeat mstep. rewrite bind_getattr_method.
    rewrite bool_decide_eq_false_2 by (simpl; exact Hundo).
    simpl. split; [done|]. by rewrite <- !app_assoc.
Qed.

End Backend.

(** ** Picking *)


Lemma nearest_None scene x y :
  nearest scene x y = None ↔ ∀ o, o ∈ scene → covering o x y = None.
Proof.
  induction scene as [|o rest IH]; simpl.
  - split; [|done]. intros _ o Ho. by apply elem_of_nil in Ho.
  - destruct (covering o x y) as [d|] eqn:Hd.
    + split.
      * destruct (nearest rest x y) as [[h' d']|]; [|done].
        by destruct (d <=? d').
      * intros H. specialize (H o (list_elem_of_here _ _)). congruence.
    + rewrite IH. split.
      * intros H o' [->|Ho']%elem_of_cons; auto.
      * intros H o' Ho'. by apply H, list_elem_of_further.
Qed.

Lemma nearest_Some scene x y h d :
  nearest scene x y = Some (h, d) →
  ∃ o, o ∈ scene ∧ handle o = h ∧ covering o x y = Some d ∧
       ∀ o' d', o' ∈ scene → covering o' x y = Some d' → d ≤ d'.
Proof.
  revert h d. induction scene as [|o rest IH]; intros h d; simpl; [done|].
  destruct (covering o x y) as [d0|] eqn:Hd0.
  - destruct (nearest rest x y) as [[h1 d1]|] eqn:Hrest.
    + destruct (IH _ _ eq_refl) as (o1 & Ho1 & Hh1 & Hc1 & Hmin).
      destruct (Z.leb_spec d0 d1); intros [= <- <-].
      * exists o. split; [apply list_elem_of_here|]. split; [done|].
        split; [done|]. intros o' d' [->|Ho']%elem_of_cons Hc'.
        -- rewrite Hd0 in Hc'. injection Hc' as <-. lia.
        -- specialize (Hmin _ _ Ho' Hc'). lia.
      * exists o1. split; [by apply list_elem_of_further|]. split; [done|].
        split; [done|]. intros o' d' [->|Ho']%elem_of_cons Hc'.
        -- rewrite Hd0 in Hc'. injection Hc' as <-. lia.
        -- by eapply Hmin.
    + intros [= <- <-]. exists o. split; [apply list_elem_of_here|].
      split; [done|]. split; [done|].
      intros o' d' [->|Ho']%elem_of_cons Hc'.
      * rewrite Hd0 in Hc'. injection Hc' as <-. lia.
      * rewrite nearest_None in Hrest. rewrite (Hrest _ Ho') in Hc'. done.
  - intros Hrest. destruct (IH _ _ Hrest) as (o1 & Ho1 & Hh1 & Hc1 & Hmin).
    exists o1. split; [by apply list_elem_of_further|]. split; [done|].
    split; [done|]. intros o' d' [->|Ho']%elem_of_cons Hc'.
    + congruence.
    + by eapply Hmin.
Qed.

(** C8: [pick] on a pixel that only [A] covers gives [A]; on a pixel that
    nothing covers it gives [None]; and where several objects cover the
    pixel it gives one of them that is nearest: no object covering the
    pixel is nearer than the one picked. *)
Theorem pick_nearest_or_none scene x y :
  (∀ A d, A ∈ scene → covering A x y = Some d →
     (∀ o, o ∈ scene → o ≠ A → covering o x y = None) →
     pick scene x y = Some (handle A)) ∧
  ((∀ o, o ∈ scene → covering o x y = None) → pick scene x y = None) ∧
  (∀ A d, A ∈ scene → covering A x y = Some d →
     ∃ o d0, pick scene x y = Some (handle o) ∧ o ∈ scene ∧
             covering o x y = Some d0 ∧
             ∀ o' d', o' ∈ scene → covering o' x y = Some d' → d0 ≤ d').
Proof.
  assert (Hsome : ∀ A d, A ∈ scene → covering A x y = Some d →
     ∃ o d0, pick scene x y = Some (handle o) ∧ o ∈ scene ∧
             covering o x y = Some d0 ∧
             ∀ o' d', o' ∈ scene → covering o' x y = Some d' → d0 ≤ d').
  { intros A d HA Hd. unfold pick.
    destruct (nearest scene x y) as [[h d0]|] eqn:Hn.
    - destruct (nearest_Some _ _ _ _ _ Hn) as (o & Ho & <- & Hc & Hmin).
      by exists o, d0.
    - rewrite nearest_None in Hn. rewrite (Hn _ HA) in Hd. done. }
  split; [|split; [|done]].
  - intros A d HA Hd Honly.
    destruct (Hsome _ _ HA Hd) as (o & d0 & -> & Ho & Hc & _).
    destruct (decide (handle o = handle A)) as [->|Hne]; [done|].
    rewrite Honly in Hc; [done|done|]. by intros ->.
  - intros Hnone. unfold pick. by rewrite (proj2 (nearest_None _ _ _) Hnone).
Qed.


Module Examples.
Import Script.

(** What [App()] does on a configuration without menubar and toolbar. *)
Example viewer_calls :
  App (JObj []) start = (Ok (), viewer) ∧
  calls viewer =
    [ QSurfaceFormat_new 0%nat; setVersion 0%nat 2 1;
      setProfile 0%nat CompatibilityProfile; setDefaultFormat 0%nat;
      QSurfaceFormat_setDefaultFormat 0%nat; QApplication_new 1%nat;
      references_new 1%nat; QMainWindow_new 2%nat;
      View_new View120 "shaded" 3%nat; setCentralWidget 2%nat 3%nat;
      setContentsMargins 2%nat; Controller_new; references_add 1%nat 2%nat;
      Selector_new; statusBar 2%nat 4%nat; setContentsMargins 4%nat;
      showMessage 4%nat "Ready"; window_resize 2%nat 800 500;
      setGeometry 2%nat (1120 # 2) (580 # 2) 800 500 ].
Proof. split; vm_compute; reflexivity. Qed.

(** A menubar with a menu holding an action, a separator and an item of an
    unknown type: the first two are added, the third raises. *)
Example menubar_sample :
  let config :=
    JArr [ JObj [ ("type", JStr "menu"); ("text", JStr "View");
                  ("items", JArr [
                     JObj [ ("type", JStr "action"); ("text", JStr "Front");
                            ("action", JStr "view_front") ];
                     JObj [ ("type", JStr "separator") ];
                     JObj [ ("type", JStr "submenu") ] ]) ] ] in
  let r := init_menubar Controller_has config viewer in
  fst r = Raise NotImplementedError ∧
  calls (snd r) =
    calls viewer ++
    [ menuBar 2%nat 5%nat; setNativeMenuBar 5%nat false;
      setContentsMargins 5%nat; addMenu 5%nat (JStr "View") 6%nat;
      addAction 6%nat None (JStr "Front") (Partial "view_front" [] []) 7%nat;
      addSeparator 6%nat ].
Proof. split; vm_compute; reflexivity. Qed.

(** A toolbar entry in the configuration makes [App()] fail. *)
Example toolbar_sample :
  fst (App (JObj [("toolbar", JArr [JObj [("type", JStr "separator")]])]) start)
    = Raise (AttributeError "undo").
Proof. vm_compute. reflexivity. Qed.

Lemma viewer_constructed : constructed viewer.
Proof. eexists _, _. split; [reflexivity|]. split; [reflexivity|]. done. Qed.

(** C1: [obj = viewer.add(polygon, linecolor=(0, 0, 1))] binds [obj] to
    [None], not to the viewer object that was registered. *)
Theorem add_returns_None :
  fst (viewer_add polygon [("linecolor", (0, 0, 1))] viewer) = Ok PyNone ∧
  registry (snd (viewer_add polygon [("linecolor", (0, 0, 1))] viewer))
    = {[ O := O ]}.
Proof. split; vm_compute; reflexivity. Qed.

Lemma add_build_failure_witness :
  Object_build Unknown [] = Raise (OtherError "UnsupportedGeometryKind") ∧
  viewer_add Unknown [] viewer
    = (Raise (OtherError "UnsupportedGeometryKind"), viewer).
Proof.
  split; [reflexivity|].
  apply (add_build_failure Object_build Object_init Selector_add). reflexivity.
Defined.

Lemma add_init_timing_witness :
  (fst (viewer_add capsule [] viewer) = Ok PyNone ∧
   calls (snd (viewer_add capsule [] viewer))
     = calls viewer ++ [called_Selector_add O] ∧
   init_calls (calls (snd (viewer_add capsule [] viewer)))
     = init_calls (calls viewer) ∧
   heap (snd (viewer_add capsule [] viewer))
     = <[O := mkObject capsule [] false]> (heap viewer)) ∧
  (calls (snd (viewer_add capsule [] shown))
     = calls shown ++ [called_Selector_add O; called_init O] ∧
   fst (viewer_add capsule [] shown) = Ok PyNone ∧
   heap (snd (viewer_add capsule [] shown))
     = <[O := mkObject capsule [] true]>
         (<[O := mkObject capsule [] false]> (heap shown))).
Proof.
  split.
  - exact (add_init_timing Object_build Object_init Selector_add
             capsule [] viewer
             (mkView View120 "shaded" 3%nat ∅ false) []
             (mkObject capsule [] false) [O]
             eq_refl eq_refl eq_refl eq_refl).
  - exact (add_init_timing Object_build Object_init Selector_add
             capsule [] shown
             (mkView View120 "shaded" 3%nat ∅ true) []
             (mkObject capsule [] false) [O]
             eq_refl eq_refl eq_refl eq_refl).
Defined.

(** The same polygon added twice makes two entries. *)
Example same_data_twice :
  size (registry (snd (add_all Object_build Object_init Selector_add
                         [(polygon, []); (polygon, [])] viewer))) = 2%nat.
Proof. vm_compute. reflexivity. Qed.

Lemma add_all_distinct_entries_witness :
  let s' := snd (add_all Object_build Object_init Selector_add script_inputs viewer) in
  constructed s' ∧ registry viewer ⊆ registry s' ∧ size (registry s') = 2%nat.
Proof.
  apply (add_all_distinct_entries Object_build Object_init Selector_add
           script_inputs viewer).
  - exact viewer_constructed.
  - vm_compute. reflexivity.
Defined.

(** *** The constructor *)

Lemma init_rejects_unsupported_version_witness :
  "440" ≠ "120" ∧ "440" ≠ "330" ∧
  __init__ (Obj:=object) [] Controller_has App_attrs "440" 800 500 "shaded"
    (JObj []) start = (Raise (Exception unsupported), start).
Proof.
  split; [done|]. split; [done|].
  by apply (init_rejects_unsupported_version (Obj:=object) [] Controller_has
              App_attrs "440" 800 500 "shaded" (JObj []) start).
Defined.

Lemma backend_chosen_once_witness :
  choices viewer
    = [ChoseVersion 2 1; ChoseProfile CompatibilityProfile; ChoseView View120] ∧
  backend (self viewer) = Some View120 ∧
  ("440" ≠ "120" ∧ "440" ≠ "330" ∧
   snd (__init__ (Obj:=object) [] Controller_has App_attrs "440" 800 500
          "shaded" (JObj []) start) = start).
Proof.
  pose proof (backend_chosen_once Object_build Object_init [] Selector_add
                Controller_has App_attrs 800 500 "shaded" (JObj []) start)
    as ((H1 & H2) & _ & H3 & _).
  split; [exact H1|]. split; [exact H2|].
  split; [done|]. split; [done|]. by apply H3.
Defined.

Lemma absent_bars_are_skipped_witness :
  fst (App (JObj []) start) = Ok () ∧
  menubar (self viewer) = None ∧
  omap created_bar (calls viewer) = [].
Proof.
  pose proof (absent_bars_are_skipped (Obj:=object) [] Controller_has App_attrs
                "120" 800 500 "shaded" [] start
                (or_introl eq_refl) eq_refl eq_refl) as (H1 & H2 & H3 & _).
  split; [exact H1|]. split; [exact H2|exact H3].
Defined.

(** *** The toolbar *)

Lemma toolbar_is_undo_redo_witness :
  fst (init_toolbar App_attrs (JArr [JNull]) viewer)
    = Raise (AttributeError "undo") ∧
  calls (snd (init_toolbar App_attrs (JArr [JNull]) viewer)) =
    calls viewer ++
    [ addToolBar 2%nat "Tools" 5%nat; setMovable 5%nat false;
      setObjectName 5%nat "Tools"; setIconSize 5%nat 24 24;
      QIcon_new (JStr "../icons/undo-solid.svg") 6%nat ].
Proof.
  pose proof (toolbar_is_undo_redo (Obj:=object) App_attrs (JArr [JNull])
                viewer 2%nat eq_refl eq_refl) as (_ & _ & _ & _ & H1 & H2).
  split; [exact H1|exact H2].
Defined.

(** *** The menubar *)

(** C7, as stated, fails: [checkbox] is an item of [radio_config] whose
    type is outside the four, and the menubar is built with it as an
    action, nothing raised. *)
Lemma unknown_type_in_radio_is_accepted :
  config_item radio_config checkbox ∧
  ¬ known_type checkbox ∧
  add_menubar_items Controller_has radio_config 5%nat viewer
    = (Ok (),
       with_next 7%nat
         (fold_left (λ s c, with_call c s)
            [ QActionGroup_new 2%nat true 5%nat;
              addAction 5%nat None (JStr "Top") (Partial "view_top" [] []) 6%nat;
              setCheckable 6%nat true; setChecked 6%nat (JBool true);
              group_addAction 5%nat 6%nat ] viewer)) ∧
  ¬ (∀ items parent (s : @State object (list loc)) item,
       config_item items item → ¬ known_type item →
       fst (add_menubar_items Controller_has items parent s)
         = Raise NotImplementedError).
Proof.
  assert (Hitem : config_item radio_config checkbox).
  { eapply config_child; [reflexivity|apply list_elem_of_here|reflexivity|].
    eapply config_here; [reflexivity|apply list_elem_of_here]. }
  assert (Hunknown : ¬ known_type checkbox).
  { intros (ty & [= <-] & Hin). unfold item_types in Hin.
    rewrite !elem_of_cons, elem_of_nil in Hin. intuition discriminate. }
  assert (Hrun : add_menubar_items Controller_has radio_config 5%nat viewer
    = (Ok (),
       with_next 7%nat
         (fold_left (λ s c, with_call c s)
            [ QActionGroup_new 2%nat true 5%nat;
              addAction 5%nat None (JStr "Top") (Partial "view_top" [] []) 6%nat;
              setCheckable 6%nat true; setChecked 6%nat (JBool true);
              group_addAction 5%nat 6%nat ] viewer)))
    by (vm_compute; reflexivity).
  split; [exact Hitem|]. split; [exact Hunknown|]. split; [exact Hrun|].
  intros Hclaim.
  specialize (Hclaim radio_config 5%nat viewer checkbox Hitem Hunknown).
  rewrite Hrun in Hclaim. discriminate Hclaim.
Qed.

Lemma menubar_item_types_witness :
  add_menubar_items (Obj:=object) Controller_has
    (JArr [JObj [("type", JStr "separator")]; checkbox]) 5%nat viewer
  = (Raise NotImplementedError, with_call (addSeparator 5%nat) viewer).
Proof.
  pose proof (menubar_item_types (Obj:=object) Controller_has
                (JArr []) 5%nat viewer) as (_ & H & _).
  apply (H [JObj [("type", JStr "separator")]] checkbox [] (JStr "checkbox")
           (with_call (addSeparator 5%nat) viewer)).
  - vm_compute. reflexivity.
  - reflexivity.
  - unfold item_types. rewrite !elem_of_cons, elem_of_nil.
    intuition discriminate.
Defined.

(** *** Picking *)

Lemma pick_nearest_or_none_witness :
  pick [far; near] 10 10 = Some 0%nat ∧
  pick [far; near] 12 12 = Some 1%nat ∧
  pick [far; near] 30 30 = None.
Proof.
  split; [reflexivity|]. split.
  - apply (proj1 (pick_nearest_or_none [far; near] 12 12) far 7).
    + apply list_elem_of_here.
    + reflexivity.
    + intros o [->|[->|[]%elem_of_nil]%elem_of_cons]%elem_of_cons Hne; done.
  - apply (proj1 (proj2 (pick_nearest_or_none [far; near] 30 30))).
    intros o [->|[->|[]%elem_of_nil]%elem_of_cons]%elem_of_cons; reflexivity.
Defined.

End Examples.

(** * More properties of the code *)

(** ** The footprint of the user-interface methods *)

Section Footprint.

Context {Obj SelState : Type}.
Variable Controller_has : string → bool.
Variable class_attrs : list string.

#[local] Abbreviation State := (@State Obj SelState).
#[local] Abbreviation M := (@M Obj SelState).
#[local] Abbreviation ui_only :=
  (preserves (Obj:=Obj) (SelState:=SelState) core non_ui).

Lemma ui_only_add_action item parent :
  ui_only (add_action Controller_has item parent).
Proof. unfold add_action, QIcon, getattr_controller. preserves_tac. Qed.
#[local] Hint Resolve ui_only_add_action : preserves.

Lemma ui_only_add_radio_action radio parent item :
  ui_only (add_radio_action Controller_has radio parent item).
Proof. unfold add_radio_action. preserves_tac. Qed.
#[local] Hint Resolve ui_only_add_radio_action : preserves.

Lemma ui_only_add_menubar_items_rec fuel : ∀ items parent,
  ui_only (add_menubar_items_rec Controller_has fuel items parent).
Proof.
  induction fuel as [|fuel IH]; intros items parent; simpl; preserves_tac.
Qed.
#[local] Hint Resolve ui_only_add_menubar_items_rec : preserves.

Lemma ui_only_add_menubar_items items parent :
  ui_only (add_menubar_items Controller_has items parent).
Proof. apply ui_only_add_menubar_items_rec. Qed.
#[local] Hint Resolve ui_only_add_menubar_items : preserves.

Lemma ui_only_add_toolbar_items items parent :
  ui_only (add_toolbar_items Controller_has items parent).
Proof. unfold add_toolbar_items. preserves_tac. Qed.

Lemma ui_only_init_statusbar : ui_only init_statusbar.
Proof. unfold init_statusbar. preserves_tac. Qed.

Lemma ui_only_init_menubar items :
  ui_only (init_menubar Controller_has items).
Proof. unfold init_menubar. preserves_tac. Qed.

Lemma ui_only_getattr_method name :
  ui_only (getattr_method class_attrs name).
Proof.
  apply preserves_pure. intros s. unfold getattr_method. by case_bool_decide.
Qed.
#[local] Hint Resolve ui_only_getattr_method : preserves.

Lemma ui_only_init_toolbar items :
  ui_only (init_toolbar class_attrs items).
Proof. unfold init_toolbar, QIcon. preserves_tac. Qed.

Lemma ui_only_resize width height : ui_only (resize width height).
Proof. unfold resize. preserves_tac. Qed.

Lemma ui_only_show : ui_only show.
Proof. unfold show. preserves_tac. Qed.


End Footprint.

(** ** The constructor and what follows it *)

Lemma VERSIONS_supported version x :
  VERSIONS !! version = Some x → version = "120" ∨ version = "330".
Proof.
  intros Hx. destruct (decide (version = "120")) as [|H1]; [by left|].
  destruct (decide (version = "330")) as [|H2]; [by right|].
  by rewrite VERSIONS_other in Hx.
Qed.

Lemma core_eq {SelState} (a b : @Self SelState) :
  core a = core b →
  width a = width b ∧ height a = height b ∧ window a = window b ∧
  view a = view b ∧ controller a = controller b ∧ _app a = _app b ∧
  selector a = selector b.
Proof. unfold core. by intros [= -> -> -> -> -> -> ->]. Qed.

Section Constructed.

Context {Data Kwargs Obj SelState : Type}.
Variable Object_build : Data → Kwargs → result Obj.
Variable Object_init : Obj → result Obj.
Variable Selector_empty : SelState.
Variable Selector_add : SelState → loc → result SelState.
Variable Controller_has : string → bool.
Variable class_attrs : list string.

#[local] Abbreviation State := (@State Obj SelState).
#[local] Abbreviation M := (@M Obj SelState).
#[local] Abbreviation construct :=
  (__init__ (Obj:=Obj) Selector_empty Controller_has class_attrs).
#[local] Abbreviation add_object :=
  (add Object_build Object_init Selector_add).
#[local] Abbreviation add_each :=
  (add_all Object_build Object_init Selector_add).

#[local] Hint Resolve ui_only_init_statusbar ui_only_init_menubar
  ui_only_init_toolbar ui_only_resize : preserves.

(** The attributes the constructor has assigned when it reaches
    [init_statusbar] are those it ends with. *)
Lemma init_core version width height viewmode config (s s' : State) :
  construct version width height viewmode config s = (Ok (), s') →
  (version = "120" ∨ version = "330") ∧
  ∃ win v app,
    core (self s') =
      (Some width, Some height, Some win,
       Some (mkView (if String.eqb version "330" then View330 else View120)
               viewmode v ∅ false),
       Some (), Some app, Some Selector_empty).
Proof.
  unfold __init__. destruct (VERSIONS !! version) as [[major minor]|] eqn:Hv;
    [|done].
  apply VERSIONS_supported in Hv. intros Hrun. split; [done|]. revert Hrun.
  destruct Hv as [-> | ->]; simpl String.eqb; cbv iota;
    repeat mstep; rewrite bind_get_application; simpl (qapp _);
    destruct (qapp s); repeat mstep.
  all: match goal with
       | |- bind init_statusbar ?k ?s1 = _ → _ =>
           let H := fresh "Htail" in
           assert (H : preserves (Obj:=Obj) (SelState:=SelState) core non_ui
                         (bind init_statusbar k)) by preserves_tac;
           destruct (H s1) as [Hcore _]; intros Hrun;
           rewrite Hrun in Hcore; simpl in Hcore; rewrite Hcore
       end.
  all: by eexists _, _, _.
Qed.

Lemma init_state version w h viewmode config (s s' : State) :
  construct version w h viewmode config s = (Ok (), s') →
  (version = "120" ∨ version = "330") ∧
  width (self s') = Some w ∧ height (self s') = Some h ∧
  is_Some (window (self s')) ∧ controller (self s') = Some () ∧
  is_Some (_app (self s')) ∧ selector (self s') = Some Selector_empty ∧
  (∃ v, view (self s') = Some v ∧
        view_cls v = (if String.eqb version "330" then View330 else View120) ∧
        view_mode v = viewmode ∧ objects v = ∅ ∧ valid v = false) ∧
  registry s' = ∅ ∧ constructed s'.
Proof.
  intros Hrun. destruct (init_core _ _ _ _ _ _ _ Hrun)
    as (Hversion & win & v & app & Hcore).
  unfold core in Hcore.
  injection Hcore as Hwidth Hheight Hwindow Hview Hcontroller Happ Hselector.
  split; [done|]. split; [done|]. split; [done|].
  split; [by rewrite Hwindow|]. split; [done|].
  split; [by rewrite Happ|]. split; [done|].
  split; [by eexists|]. split; [unfold registry; by rewrite Hview|].
  eexists _, _. split; [done|]. split; [done|]. simpl.
  rewrite dom_empty_L. apply empty_subseteq.
Qed.

(** X2: when the constructor returns, the instance has its width and
    height as given, a window, a controller, the application, a new
    selector, and a view of the class of the version, in the mode asked
    for, whose registry is empty and whose rendering context is not yet
    valid: the state [add] needs. *)
Theorem init_postcondition version w h viewmode config (s s' : State) :
  construct version w h viewmode config s = (Ok (), s') →
  (version = "120" ∨ version = "330") ∧
  width (self s') = Some w ∧ height (self s') = Some h ∧
  is_Some (window (self s')) ∧ controller (self s') = Some () ∧
  is_Some (_app (self s')) ∧ selector (self s') = Some Selector_empty ∧
  (∃ v, view (self s') = Some v ∧
        view_cls v = (if String.eqb version "330" then View330 else View120) ∧
        view_mode v = viewmode ∧ objects v = ∅ ∧ valid v = false) ∧
  registry s' = ∅ ∧ constructed s'.
Proof. apply init_state. Qed.

(** Without a valid rendering context a successful [add] makes no [init]
    call and leaves the context as it is. *)
Lemma add_deferred data kwargs (s s' : State) v r :
  view (self s) = Some v → valid v = false →
  add_object data kwargs s = (Ok r, s') →
  init_calls (calls s') = init_calls (calls s) ∧
  ∃ v', view (self s') = Some v' ∧ valid v' = false.
Proof.
  intros Hv Hvalid.
  unfold add, build, view_objects_setitem, selector_add, view_isValid, init.
  unfold_m.
  destruct (Object_build data kwargs) as [o|e]; simpl; [|discriminate].
  rewrite Hv. simpl.
  destruct (selector (self s)) as [sel|]; simpl; [|discriminate].
  destruct (Selector_add sel _) as [sel'|e]; simpl; [|discriminate].
  rewrite Hvalid. simpl. intros [= <- <-]. simpl. split.
  - unfold init_calls. rewrite omap_app. simpl. apply app_nil_r.
  - eexists. split; [done|]. done.
Qed.

Lemma add_all_deferred inputs : ∀ (s s' : State),
  constructed s → (∃ v, view (self s) = Some v ∧ valid v = false) →
  add_each inputs s = (Ok (), s') →
  size (registry s') = (size (registry s) + length inputs)%nat ∧
  init_calls (calls s') = init_calls (calls s) ∧
  ∃ v', view (self s') = Some v' ∧ valid v' = false.
Proof.
  induction inputs as [|[d k] inputs IH]; intros s s' Hc (v & Hv & Hvalid).
  - intros [= <-]. split; [simpl; lia|]. split; [done|]. eauto.
  - unfold add_all. simpl. unfold bind at 1 2. simpl.
    destruct (add_object d k s) as [[r|e] s1] eqn:Hadd; [|discriminate].
    unfold ret at 1. intros Hrest.
    destruct (add_constructed _ _ _ _ _ _ _ _ Hc Hadd) as (Hc1 & Hnew & Hreg).
    destruct (add_deferred _ _ _ _ _ _ Hv Hvalid Hadd) as (Hinit1 & Hdef1).
    destruct (IH _ _ Hc1 Hdef1 Hrest) as (Hsize & Hinit & Hdef).
    split; [|split; [congruence|done]].
    rewrite Hsize, Hreg, map_size_insert_None by done. simpl. lia.
Qed.

(** X3: objects added after the constructor has returned and before the
    window is shown are all registered, and [add] initialises none of
    them: after [n] successful calls the registry has exactly [n]
    entries, the call log has no new [init] call, and the rendering
    context is still not valid. *)
Theorem adds_after_init_are_deferred version w h viewmode config inputs
    (s s1 s2 : State) :
  construct version w h viewmode config s = (Ok (), s1) →
  add_each inputs s1 = (Ok (), s2) →
  size (registry s2) = length inputs ∧
  init_calls (calls s2) = init_calls (calls s1) ∧
  ∃ v, view (self s2) = Some v ∧ valid v = false.
Proof.
  intros Hinit Hadds.
  destruct (init_state _ _ _ _ _ _ _ Hinit)
    as (_ & _ & _ & _ & _ & _ & _ & (v & Hv & _ & _ & _ & Hvalid) & Hreg & Hc).
  destruct (add_all_deferred _ _ _ Hc (ex_intro _ v (conj Hv Hvalid)) Hadds)
    as (Hsize & Hcalls & Hdef).
  split; [|done]. rewrite Hsize, Hreg. by rewrite map_size_empty.
Qed.

End Constructed.

(** ** More on [add] *)

Section Adding.

Context {Data Kwargs Obj SelState : Type}.
Variable Object_build : Data → Kwargs → result Obj.
Variable Object_init : Obj → result Obj.
Variable Selector_add : SelState → loc → result SelState.

#[local] Abbreviation State := (@State Obj SelState).
#[local] Abbreviation add_object :=
  (add Object_build Object_init Selector_add).

(** Whatever its outcome, [add] leaves the registry as it was or with one
    entry more, for the new object, and frees no object. *)
Lemma add_registry data kwargs (s : State) :
  let s' := snd (add_object data kwargs s) in
  dom (heap s) ⊆ dom (heap s') ∧
  (registry s' = registry s ∨
   registry s' = <[next_loc s := next_loc s]> (registry s) ∧
   next_loc s ∈ dom (heap s')).
Proof.
  unfold add, build, view_objects_setitem, selector_add, view_isValid, init,
    next_loc, registry. unfold_m.
  destruct (Object_build data kwargs) as [o|e]; simpl; [|by split; [|left]].
  destruct (view (self s)) as [v|] eqn:Hv; simpl.
  2:{ rewrite Hv. split; [|by left]. rewrite dom_insert_L. set_solver. }
  assert (Hin : fresh (dom (heap s)) ∈ dom (<[fresh (dom (heap s)) := o]> (heap s))).
  { rewrite dom_insert_L. set_solver. }
  assert (Hsub : dom (heap s) ⊆ dom (<[fresh (dom (heap s)) := o]> (heap s))).
  { rewrite dom_insert_L. set_solver. }
  destruct (selector (self s)) as [sel|]; simpl; [|by split; [|right]].
  destruct (Selector_add sel _) as [sel'|e]; simpl; [|by split; [|right]].
  destruct (valid v); simpl; [|by split; [|right]].
  rewrite lookup_insert_eq.
  destruct (Object_init o) as [o'|e]; simpl; [|by split; [|right]].
  rewrite !dom_insert_L. split; [set_solver|right]. split; [done|set_solver].
Qed.

(** X4: the registry maps every key to itself and holds live objects
    only, and [add] keeps it so whether it returns or raises; it never
    removes or replaces an entry and adds at most one. *)
Theorem add_keeps_registry data kwargs (s : State) :
  (∀ k v, registry s !! k = Some v → v = k) →
  dom (registry s) ⊆ dom (heap s) →
  let s' := snd (add_object data kwargs s) in
  (∀ k v, registry s' !! k = Some v → v = k) ∧
  dom (registry s') ⊆ dom (heap s') ∧
  registry s ⊆ registry s' ∧
  (size (registry s') ≤ S (size (registry s)))%nat.
Proof.
  intros Hid Hlive s'.
  destruct (add_registry data kwargs s) as (Hheap & [Hreg|[Hreg Hnew]]);
    fold s' in Hheap, Hreg |- *; try fold s' in Hnew; rewrite Hreg.
  - split; [done|]. split; [set_solver|]. split; [done|]. lia.
  - assert (Hfresh : registry s !! next_loc s = None).
    { apply not_elem_of_dom. intros Hin. apply Hlive in Hin.
      by apply (is_fresh (dom (heap s))). }
    split; [|split; [|split]].
    + intros k v. rewrite lookup_insert. case_decide; [|apply Hid].
      by intros [= <-].
    + rewrite dom_insert_L. set_solver.
    + by apply insert_subseteq.
    + by rewrite map_size_insert_None.
Qed.



End Adding.

(** ** More on the window and its bars *)

Section Bars.

Context {Obj SelState : Type}.
Variable Controller_has : string → bool.
Variable class_attrs : list string.

#[local] Abbreviation State := (@State Obj SelState).
#[local] Abbreviation M := (@M Obj SelState).
#[local] Abbreviation menubar_items :=
  (add_menubar_items (Obj:=Obj) (SelState:=SelState) Controller_has).
#[local] Abbreviation toolbar_items :=
  (add_toolbar_items (Obj:=Obj) (SelState:=SelState) Controller_has).
#[local] Abbreviation action :=
  (add_action (Obj:=Obj) (SelState:=SelState) Controller_has).


(** *** The toolbar's items *)

Lemma for_each_app {A} (l1 l2 : list A) (body : A → M unit) s :
  for_each (l1 ++ l2) body s
    = bind (for_each l1 body) (λ _, for_each l2 body) s.
Proof.
  revert s. induction l1 as [|x l1 IH]; intros s; simpl; [done|].
  rewrite bind_bind. apply bind_ext. intros [] s1. apply IH.
Qed.

Lemma add_toolbar_items_list l parent (s : State) :
  toolbar_items (JArr l) parent s =
  for_each l (λ item,
    bind (lift (py_getitem item "type")) (λ ty,
    if py_eq_str ty "separator" then log (addSeparator parent)
    else if py_eq_str ty "action" then
      bind (action item parent) (λ _, ret ())
    else raise NotImplementedError)) s.
Proof. unfold add_toolbar_items. by destruct l. Qed.

(** X8: [add_toolbar_items] knows separators and actions only: a toolbar
    it has built has one of these two types on every item, and an item of
    any other type, a menu or a radio group included, raises
    [NotImplementedError] when the loop reaches it, with the items before
    it added and nothing added for it. *)
Theorem toolbar_item_types parent (s : State) :
  (∀ l item s',
     toolbar_items (JArr l) parent s = (Ok (), s') → item ∈ l →
     py_getitem item "type" = Ok (JStr "separator") ∨
     py_getitem item "type" = Ok (JStr "action")) ∧
  (∀ pre item post ty s1,
     toolbar_items (JArr pre) parent s = (Ok (), s1) →
     py_getitem item "type" = Ok ty →
     ty ≠ JStr "separator" → ty ≠ JStr "action" →
     toolbar_items (JArr (pre ++ item :: post)) parent s
       = (Raise NotImplementedError, s1)).
Proof.
  split.
  - intros l item s'. rewrite add_toolbar_items_list. intros Hrun Hitem.
    destruct (for_each_ok_elem _ _ _ Hitem _ _ Hrun) as (s1 & s2 & Hb).
    revert Hb. unfold bind at 1, lift.
    destruct (py_getitem item "type") as [ty|e]; simpl; [|done].
    destruct (py_eq_str ty "separator") eqn:H1.
    { apply py_eq_str_true in H1 as ->. by left. }
    destruct (py_eq_str ty "action") eqn:H2; [|done].
    apply py_eq_str_true in H2 as ->. by right.
  - intros pre item post ty s1. rewrite !add_toolbar_items_list.
    intros Hpre Hty H1 H2. rewrite for_each_app. unfold bind at 1.
    rewrite Hpre. simpl. rewrite Hty. mstep. mstep.
    apply py_eq_str_false in H1, H2. by rewrite H1, H2.
Qed.

(** *** Items that are not a list *)

(** X9: the [items] of a menubar or toolbar are tested for truth before
    they are looked at: [None], an empty list, dict or string, zero and
    [False] are accepted and nothing is done; anything else that is not a
    list (a non-empty dict or string, a number, [True]) raises
    [TypeError], and nothing has been added by then. *)
Theorem items_must_be_a_list items parent (s : State) :
  (truthy items = false →
   menubar_items items parent s = (Ok (), s) ∧
   toolbar_items items parent s = (Ok (), s)) ∧
  (truthy items = true → (∀ l, items ≠ JArr l) →
   menubar_items items parent s = (Raise TypeError, s) ∧
   toolbar_items items parent s = (Raise TypeError, s)).
Proof.
  split.
  - intros Hfalsy. rewrite add_menubar_items_eq. unfold add_toolbar_items.
    by rewrite Hfalsy.
  - intros Htruthy Hlist. rewrite add_menubar_items_eq.
    unfold add_toolbar_items. rewrite Htruthy. simpl.
    destruct items as [|b|n|c|l|kvs]; try done.
    + by destruct c.
    + by destruct (Hlist l).
    + by destruct kvs as [|[k v] kvs].
Qed.

(** *** Actions *)

Ltac count_actions :=
  unfold action_count; rewrite ?omap_app, ?length_app; simpl; lia.

Lemma py_iter_raise v e : py_iter v = Raise e → e = TypeError.
Proof. destruct v; simpl; congruence. Qed.

Lemma py_mapping_raise v e : py_mapping v = Raise e → e = TypeError.
Proof. destruct v; simpl; congruence. Qed.


(** *** Radio groups *)

#[local] Abbreviation radio_action :=
  (add_radio_action (Obj:=Obj) (SelState:=SelState) Controller_has).

(** X11: a radio group can be left half-built.  A radio item without
    ['items'] raises [KeyError] after its action group has been created,
    where a menu without ['items'] is simply empty; and an item of the
    group without ['checked'] raises [KeyError] after its action has been
    added to the parent and made checkable, but before it joins the
    group. *)
Theorem radio_group_half_built parent (s : State) :
  (∀ item rest win e,
     py_getitem item "type" = Ok (JStr "radio") →
     window (self s) = Some win →
     py_getitem item "items" = Raise e →
     menubar_items (JArr (item :: rest)) parent s
       = (Raise e, with_call (QActionGroup_new win true (next_qid s))
                     (with_next (S (next_qid s)) s))) ∧
  (∀ radio child a s1 e,
     action child parent s = (Ok a, s1) →
     py_getitem child "checked" = Raise e →
     radio_action radio parent child s
       = (Raise e, with_call (setCheckable a true) s1)) ∧
  (∀ radio child a s1 checked,
     action child parent s = (Ok a, s1) →
     py_getitem child "checked" = Ok checked →
     radio_action radio parent child s
       = (Ok (), with_call (group_addAction radio a)
                   (with_call (setChecked a checked)
                      (with_call (setCheckable a true) s1)))).
Proof.
  split; [|split].
  - intros item rest win e Hty Hwin Hitems.
    rewrite add_menubar_items_cons. unfold menubar_item.
    rewrite Hty. mrun. by rewrite Hitems.
  - intros radio child a s1 e Hact Hchecked. unfold add_radio_action.
    erewrite bind_ok by exact Hact. mstep. by rewrite Hchecked.
  - intros radio child a s1 checked Hact Hchecked. unfold add_radio_action.
    erewrite bind_ok by exact Hact. mstep. rewrite Hchecked. by repeat mstep.
Qed.

(** *** The menubar *)

#[local] Abbreviation one_bar :=
  (preserves (Obj:=Obj) (SelState:=SelState) menubar created_bar).

Lemma one_bar_add_action item parent : one_bar (action item parent).
Proof. unfold add_action, QIcon, getattr_controller. preserves_tac. Qed.
#[local] Hint Resolve one_bar_add_action : preserves.

Lemma one_bar_add_radio_action radio parent item :
  one_bar (radio_action radio parent item).
Proof. unfold add_radio_action. preserves_tac. Qed.
#[local] Hint Resolve one_bar_add_radio_action : preserves.

Lemma one_bar_add_menubar_items_rec fuel : ∀ items parent,
  one_bar (add_menubar_items_rec Controller_has fuel items parent).
Proof.
  induction fuel as [|fuel IH]; intros items parent; simpl; preserves_tac.
Qed.

(** X12: [init_menubar] with truthy items creates exactly one menubar and
    records it in [self.menubar] before it looks at the items: the
    menubar is there and recorded also when an item raises; processing the
    items creates no further menubar or toolbar. *)
Theorem init_menubar_makes_one_bar items (s : State) win :
  truthy items = true → window (self s) = Some win →
  let s' := snd (init_menubar Controller_has items s) in
  menubar (self s') = Some (next_qid s) ∧
  omap created_bar (calls s') = omap created_bar (calls s) ++ [next_qid s] ∧
  (∀ parent (s0 : State),
     unchanged menubar created_bar s0
       (snd (menubar_items items parent s0))).
Proof.
  intros Htruthy Hwin s'. subst s'.
  assert (Hitems : ∀ parent, one_bar (menubar_items items parent)).
  { intros parent. apply one_bar_add_menubar_items_rec. }
  split; [|split; [|exact Hitems]];
    unfold init_menubar; rewrite Htruthy; cbn [negb]; repeat mstep.
  - by destruct (Hitems (next_qid s)
      (with_call (setContentsMargins (next_qid s))
         (with_call (setNativeMenuBar (next_qid s) false)
            (with_self (set_menubar (next_qid s))
               (with_call (menuBar win (next_qid s))
                  (with_next (S (next_qid s)) s)))))) as [-> _].
  - destruct (Hitems (next_qid s)
      (with_call (setContentsMargins (next_qid s))
         (with_call (setNativeMenuBar (next_qid s) false)
            (with_self (set_menubar (next_qid s))
               (with_call (menuBar win (next_qid s))
                  (with_next (S (next_qid s)) s)))))) as [_ ->].
    simpl. rewrite !omap_app. simpl. by rewrite !app_nil_r.
Qed.

End Bars.

(** ** The application object *)

Lemma references_fold_non_ui app l : ∀ refs,
  fold_left (λ refs c,
    match c with
    | references_new a => if Nat.eqb a app then ∅ else refs
    | references_add a w => if Nat.eqb a app then {[w]} ∪ refs else refs
    | _ => refs
    end) l refs
  = fold_left (λ (refs : gset qid) c,
    match c with
    | references_new a => if Nat.eqb a app then ∅ else refs
    | references_add a w => if Nat.eqb a app then {[w]} ∪ refs else refs
    | _ => refs
    end) (omap non_ui l) refs.
Proof.
  induction l as [|c l IH]; intros refs; [done|].
  simpl. unfold non_ui at 1. destruct (ui_call c) eqn:Hc.
  - rewrite <- IH. by destruct c.
  - simpl. apply IH.
Qed.

Lemma references_non_ui app l :
  references app l = references app (omap non_ui l).
Proof. apply references_fold_non_ui. Qed.

Lemma references_snoc app l c :
  references app (l ++ [c]) =
  match c with
  | references_new a => if Nat.eqb a app then ∅ else references app l
  | references_add a w =>
      if Nat.eqb a app then {[w]} ∪ references app l else references app l
  | _ => references app l
  end.
Proof. unfold references. by rewrite fold_left_app. Qed.

Lemma references_snoc_new app l : references app (l ++ [references_new app]) = ∅.
Proof. by rewrite references_snoc, Nat.eqb_refl. Qed.

Lemma references_snoc_add app l w :
  references app (l ++ [references_add app w]) = {[w]} ∪ references app l.
Proof. by rewrite references_snoc, Nat.eqb_refl. Qed.

Lemma applications_snoc l c :
  applications (l ++ [c]) =
  applications l ++ match c with QApplication_new a => [a] | _ => [] end.
Proof. unfold applications. rewrite omap_app. by destruct c. Qed.

Lemma applications_non_ui l : applications l = applications (omap non_ui l).
Proof.
  unfold applications. induction l as [|c l IH]; [done|].
  destruct c; simpl; first [exact IH | f_equal; exact IH].
Qed.

Section Process.

Context {Obj SelState : Type}.
Variable Object_build :
  Script.geometry → list (string * Script.color) → result Obj.
Variable Object_init : Obj → result Obj.
Variable Selector_empty : SelState.
Variable Selector_add : SelState → loc → result SelState.
Variable Controller_has : string → bool.
Variable class_attrs : list string.

#[local] Abbreviation State := (@State Obj SelState).
#[local] Abbreviation M := (@M Obj SelState).
#[local] Abbreviation construct :=
  (__init__ (Obj:=Obj) Selector_empty Controller_has class_attrs).

#[local] Hint Resolve ui_only_init_statusbar ui_only_init_menubar
  ui_only_init_toolbar ui_only_resize : preserves.

(** X13: for a supported version the constructor uses the running Qt
    application if there is one and creates one otherwise; either way it
    assigns a new, empty set to [app.references] and adds its window, so
    that afterwards the set holds this window alone: windows that an
    earlier viewer of the process had put there are no longer referenced.
    This holds also when the constructor raises later, in the menubar or
    the toolbar. *)
Theorem init_resets_references version w h viewmode config (s : State) :
  version = "120" ∨ version = "330" →
  let s' := snd (construct version w h viewmode config s) in
  ∃ app win,
    _app (self s') = Some app ∧ window (self s') = Some win ∧
    references app (calls s') = {[win]} ∧
    match qapp s with
    | Some a => app = a ∧ applications (calls s') = applications (calls s)
    | None => applications (calls s') = applications (calls s) ++ [app]
    end.
Proof.
  intros Hversion s'. subst s'.
  destruct Hversion as [-> | ->]; unfold __init__;
    rewrite ?VERSIONS_120, ?VERSIONS_330; simpl String.eqb; cbv iota;
    repeat mstep; rewrite bind_get_application; simpl (qapp _);
    destruct (qapp s) as [a|]; repeat mstep.
  all: match goal with
       | |- context [snd (bind init_statusbar ?k ?s1)] =>
           let H := fresh "Htail" in
           assert (H : preserves (Obj:=Obj) (SelState:=SelState) core non_ui
                         (bind init_statusbar k)) by preserves_tac;
           destruct (H s1) as [Hcore Hcalls]
       end.
  all: destruct (core_eq _ _ Hcore) as (_ & _ & Hwindow & _ & _ & Happ & _).
  all: eexists _, _; split; [rewrite Happ; reflexivity|];
    split; [rewrite Hwindow; reflexivity|].
  all: rewrite references_non_ui, applications_non_ui, Hcalls;
    rewrite <- references_non_ui, <- applications_non_ui.
  all: cbn [calls with_call with_self with_next with_qapp].
  all: rewrite !applications_snoc; cbn iota; rewrite ?app_nil_r.
  all: rewrite !(references_snoc _ _ Selector_new); cbn iota.
  all: rewrite references_snoc_add.
  all: rewrite !(references_snoc _ _ Controller_new),
         !(references_snoc _ _ (setContentsMargins _)),
         !(references_snoc _ _ (setCentralWidget _ _)),
         !(references_snoc _ _ (View_new _ _ _)),
         !(references_snoc _ _ (QMainWindow_new _)); cbn iota.
  all: rewrite references_snoc_new, union_empty_r_L.
  all: by repeat split.
Qed.

(** X14: run against this [App], the script never gets past its decorator
    line: whatever the configuration and whatever the collaborators do,
    it raises, and what it would do with [viewer.on] is never run.  When
    the constructor and both [add] calls succeed, the exception is the
    [AttributeError] for [on], raised with both objects in the registry. *)
Theorem script_raises config rest (s : State) :
  let r := script Object_build Object_init Selector_empty Selector_add
             Controller_has config rest s in
  (∃ e, fst r = Raise e) ∧
  (∀ rest', script Object_build Object_init Selector_empty Selector_add
              Controller_has config rest' s = r) ∧
  (∀ s1 s2 s3 r2 r3,
     __init__ Selector_empty Controller_has App_attrs "120" 800 500 "shaded"
       config s = (Ok (), s1) →
     add Object_build Object_init Selector_add Script.polygon
       [("linecolor", (0, 0, 1))] s1 = (Ok r2, s2) →
     add Object_build Object_init Selector_add Script.capsule
       [("facecolor", (0, 0, 1))] s2 = (Ok r3, s3) →
     r = (Raise (AttributeError "on"), s3) ∧ size (registry s3) = 2%nat).
Proof.
  intros r. subst r.
  assert (Hon : ∀ (s0 : State) (k : callback → M unit),
    bind (getattr_method App_attrs "on") k s0
      = (Raise (AttributeError "on"), s0)).
  { intros s0 k. rewrite bind_getattr_method.
    rewrite bool_decide_eq_false_2; [done|].
    apply App_lacks; unfold App_attrs; rewrite !not_elem_of_cons;
      repeat split; first [discriminate | apply not_elem_of_nil]. }
  unfold script. split; [|split].
  - unfold bind at 1.
    destruct (__init__ _ _ _ _ _ _ _ _ s) as [[[]|e1] s1]; [|by eexists].
    unfold bind at 1. destruct (add _ _ _ _ _ s1) as [[r2|e2] s2]; [|by eexists].
    unfold bind at 1. destruct (add _ _ _ _ _ s2) as [[r3|e3] s3]; [|by eexists].
    rewrite Hon. by eexists.
  - intros rest'. apply bind_ext. intros [] s1. apply bind_ext. intros r2 s2.
    apply bind_ext. intros r3 s3. by rewrite !Hon.
  - intros s1 s2 s3 r2 r3 Hinit Hadd2 Hadd3.
    erewrite bind_ok by exact Hinit. erewrite bind_ok by exact Hadd2.
    erewrite bind_ok by exact Hadd3. rewrite Hon. split; [done|].
    destruct (init_state Selector_empty Controller_has App_attrs
                _ _ _ _ _ _ _ Hinit)
      as (_ & _ & _ & _ & _ & _ & _ & _ & Hreg & Hc).
    destruct (add_constructed _ _ _ _ _ _ _ _ Hc Hadd2) as (Hc2 & Hnew2 & Hreg2).
    destruct (add_constructed _ _ _ _ _ _ _ _ Hc2 Hadd3) as (Hc3 & Hnew3 & Hreg3).
    rewrite Hreg3, map_size_insert_None by done.
    rewrite Hreg2, map_size_insert_None by done.
    by rewrite Hreg, map_size_empty.
Qed.

End Process.

(** ** The status bar *)

Section Statusbar.

Context {Obj SelState : Type}.
Variable Selector_empty : SelState.
Variable Controller_has : string → bool.
Variable class_attrs : list string.

#[local] Abbreviation State := (@State Obj SelState).
#[local] Abbreviation M := (@M Obj SelState).
#[local] Abbreviation construct :=
  (__init__ (Obj:=Obj) Selector_empty Controller_has class_attrs).
#[local] Abbreviation same_status :=
  (preserves (Obj:=Obj) (SelState:=SelState) statusbar status_call).

Lemma same_status_add_action item parent :
  same_status (add_action Controller_has item parent).
Proof. unfold add_action, QIcon, getattr_controller. preserves_tac. Qed.
#[local] Hint Resolve same_status_add_action : preserves.

Lemma same_status_add_radio_action radio parent item :
  same_status (add_radio_action Controller_has radio parent item).
Proof. unfold add_radio_action. preserves_tac. Qed.
#[local] Hint Resolve same_status_add_radio_action : preserves.

Lemma same_status_add_menubar_items_rec fuel : ∀ items parent,
  same_status (add_menubar_items_rec Controller_has fuel items parent).
Proof.
  induction fuel as [|fuel IH]; intros items parent; simpl; preserves_tac.
Qed.
#[local] Hint Resolve same_status_add_menubar_items_rec : preserves.

Lemma same_status_init_menubar items :
  same_status (init_menubar Controller_has items).
Proof. unfold init_menubar, add_menubar_items. preserves_tac. Qed.
#[local] Hint Resolve same_status_init_menubar : preserves.

Lemma same_status_getattr_method name :
  same_status (getattr_method class_attrs name).
Proof.
  apply preserves_pure. intros s. unfold getattr_method. by case_bool_decide.
Qed.
#[local] Hint Resolve same_status_getattr_method : preserves.

Lemma same_status_init_toolbar items :
  same_status (init_toolbar class_attrs items).
Proof. unfold init_toolbar, QIcon. preserves_tac. Qed.
#[local] Hint Resolve same_status_init_toolbar : preserves.

Lemma same_status_resize w h : same_status (resize w h).
Proof. unfold resize. preserves_tac. Qed.
#[local] Hint Resolve same_status_resize : preserves.

(** X15: for a supported version the constructor makes the status bar of
    its window, records it in [self.statusbar] and shows 'Ready' in it,
    before it reads the configuration; the menubar, the toolbar and
    [resize] do not touch it, so it is there, with that one message, also
    when the configuration makes the constructor raise. *)
Theorem init_shows_ready version w h viewmode config (s : State) :
  version = "120" ∨ version = "330" →
  let s' := snd (construct version w h viewmode config s) in
  ∃ win sb,
    window (self s') = Some win ∧ statusbar (self s') = Some sb ∧
    omap status_call (calls s')
      = omap status_call (calls s) ++ [statusBar win sb; showMessage sb "Ready"].
Proof.
  intros Hversion s'. subst s'.
  destruct Hversion as [-> | ->]; unfold __init__;
    rewrite ?VERSIONS_120, ?VERSIONS_330; simpl String.eqb; cbv iota;
    repeat mstep; rewrite bind_get_application; simpl (qapp _);
    destruct (qapp s) as [a|]; repeat mstep.
  all: unfold init_statusbar; repeat mstep.
  all: match goal with
       | |- context [snd (bind (lift ?r) ?k ?s1)] =>
           let H := fresh "Htail" in
           assert (H : same_status (bind (lift r) k)) by preserves_tac;
           assert (Hui : preserves (Obj:=Obj) (SelState:=SelState) core non_ui
                           (bind (lift r) k))
             by (pose proof (ui_only_init_menubar (Obj:=Obj)
                               (SelState:=SelState) Controller_has);
                 pose proof (ui_only_init_toolbar (Obj:=Obj)
                               (SelState:=SelState) class_attrs);
                 pose proof (ui_only_resize (Obj:=Obj) (SelState:=SelState));
                 preserves_tac);
           destruct (H s1) as [Hsb Hcalls]; destruct (Hui s1) as [Hcore _]
       end.
  all: destruct (core_eq _ _ Hcore) as (_ & _ & Hwindow & _).
  all: eexists _, _; split; [rewrite Hwindow; reflexivity|];
    split; [rewrite Hsb; reflexivity|].
  all: rewrite Hcalls; cbn [calls with_call with_self with_next with_qapp];
    rewrite !omap_app; cbn [omap list_omap status_call option_bind mbind];
    by rewrite ?app_nil_r, <- ?app_assoc.
Qed.

End Statusbar.

(** ** The properties at work *)

Module More.
Import Script.

Lemma init_postcondition_witness :
  width (self viewer) = Some 800 ∧ height (self viewer) = Some 500 ∧
  registry viewer = ∅ ∧ constructed viewer.
Proof.
  pose proof (init_postcondition (Obj:=object) [] Controller_has App_attrs
                "120" 800 500 "shaded" (JObj []) start viewer
                ltac:(vm_compute; reflexivity))
    as (_ & H1 & H2 & _ & _ & _ & _ & _ & H3 & H4).
  by repeat split.
Defined.

Lemma adds_after_init_are_deferred_witness :
  let s2 := snd (add_all Object_build Object_init Selector_add
                   script_inputs viewer) in
  size (registry s2) = 2%nat ∧
  init_calls (calls s2) = init_calls (calls viewer) ∧
  ∃ v, view (self s2) = Some v ∧ valid v = false.
Proof.
  apply (adds_after_init_are_deferred Object_build Object_init []
           Selector_add Controller_has App_attrs
           "120" 800 500 "shaded" (JObj []) script_inputs start viewer).
  - vm_compute. reflexivity.
  - vm_compute. reflexivity.
Defined.

Lemma add_keeps_registry_witness :
  let s' := snd (viewer_add polygon [] viewer) in
  (∀ k v, registry s' !! k = Some v → v = k) ∧
  dom (registry s') ⊆ dom (heap s') ∧
  registry viewer ⊆ registry s' ∧
  (size (registry s') ≤ S (size (registry viewer)))%nat.
Proof.
  apply (add_keeps_registry Object_build Object_init Selector_add
           polygon [] viewer).
  - intros k v Hk.
    replace (registry viewer) with (∅ : gmap loc loc) in Hk by reflexivity.
    by rewrite lookup_empty in Hk.
  - replace (registry viewer) with (∅ : gmap loc loc) by reflexivity.
    rewrite dom_empty_L. apply empty_subseteq.
Defined.




Lemma toolbar_item_types_witness :
  add_toolbar_items Controller_has (JArr (toolbar_config ++ [submenu]))
    6%nat viewer
  = (Raise NotImplementedError, with_call (addSeparator 6%nat) viewer).
Proof.
  apply (proj2 (toolbar_item_types Controller_has 6%nat viewer)
           toolbar_config submenu [] (JStr "menu")).
  - vm_compute. reflexivity.
  - reflexivity.
  - discriminate.
  - discriminate.
Defined.

Lemma items_must_be_a_list_witness :
  add_menubar_items Controller_has (JObj [("type", JStr "menu")]) 6%nat viewer
    = (Raise TypeError, viewer) ∧
  add_toolbar_items Controller_has (JObj [("type", JStr "menu")]) 6%nat viewer
    = (Raise TypeError, viewer).
Proof.
  apply (proj2 (items_must_be_a_list Controller_has
                  (JObj [("type", JStr "menu")]) 6%nat viewer)).
  - reflexivity.
  - discriminate.
Defined.

Lemma radio_group_half_built_witness :
  add_menubar_items Controller_has (JArr [bare_radio]) 6%nat viewer
    = (Raise (KeyError "items"),
       with_call (QActionGroup_new 2%nat true 5%nat)
         (with_next 6%nat viewer)) ∧
  fst (add_radio_action Controller_has 7%nat 6%nat unchecked viewer)
    = Raise (KeyError "checked") ∧
  actions_of 6%nat
    (calls (snd (add_radio_action Controller_has 7%nat 6%nat unchecked viewer)))
    = [5%nat].
Proof.
  pose proof (radio_group_half_built Controller_has 6%nat viewer)
    as (H1 & H2 & _).
  split.
  - exact (H1 bare_radio [] 2%nat (KeyError "items") eq_refl eq_refl eq_refl).
  - rewrite (H2 7%nat unchecked 5%nat
               (snd (add_action Controller_has unchecked 6%nat viewer))
               (KeyError "checked")
               ltac:(vm_compute; reflexivity) eq_refl).
    split; [reflexivity|]. vm_compute. reflexivity.
Defined.

Lemma init_menubar_makes_one_bar_witness :
  let s' := snd (init_menubar Controller_has (JArr [bare_radio]) viewer) in
  menubar (self s') = Some 5%nat ∧
  omap created_bar (calls s') = omap created_bar (calls viewer) ++ [5%nat].
Proof.
  pose proof (init_menubar_makes_one_bar Controller_has (JArr [bare_radio])
                viewer 2%nat eq_refl eq_refl) as (H1 & H2 & _).
  by split.
Defined.

Lemma init_resets_references_witness :
  let s' := snd (App (JObj []) viewer) in
  ∃ app win,
    _app (self s') = Some app ∧ window (self s') = Some win ∧
    references app (calls s') = {[win]} ∧
    app = 1%nat ∧ applications (calls s') = applications (calls viewer).
Proof.
  destruct (init_resets_references (Obj:=object) [] Controller_has App_attrs
              "120" 800 500 "shaded" (JObj []) viewer (or_introl eq_refl))
    as (app & win & H1 & H2 & H3 & H4).
  by exists app, win.
Defined.

Lemma script_raises_witness :
  script Object_build Object_init [] Selector_add Controller_has (JObj [])
    (λ _, ret ()) start
  = (Raise (AttributeError "on"),
     snd (add_all Object_build Object_init Selector_add script_inputs viewer)).
Proof.
  pose proof (script_raises Object_build Object_init [] Selector_add
                Controller_has (JObj []) (λ _, ret ()) start) as (_ & _ & H).
  apply (H viewer
           (snd (viewer_add polygon [("linecolor", (0, 0, 1))] viewer))
           (snd (add_all Object_build Object_init Selector_add
                   script_inputs viewer))
           PyNone PyNone).
  - vm_compute. reflexivity.
  - vm_compute. reflexivity.
  - vm_compute. reflexivity.
Defined.

Lemma init_shows_ready_witness :
  window (self viewer) = Some 2%nat ∧ statusbar (self viewer) = Some 4%nat ∧
  omap status_call (calls viewer)
    = [statusBar 2%nat 4%nat; showMessage 4%nat "Ready"].
Proof.
  destruct (init_shows_ready (Obj:=object) [] Controller_has App_attrs
              "120" 800 500 "shaded" (JObj []) start (or_introl eq_refl))
    as (win & sb & H1 & H2 & H3).
  split; [reflexivity|]. split; [reflexivity|]. reflexivity.
Defined.

End More.
